(** * isupipe web application: user registration, login and session check

    A shallow embedding of [webapp/go/user_handler.go].  The three handlers
    that carry logic ([userRegisterHandler], [loginHandler], [userHandler])
    are written as programs in a small state-and-early-return monad over a
    world made of the database, the logger and the response headers.  What
    the handlers obtain from outside the file (the clock, the UUID source,
    SHA-512, the SQL engine's comparisons, infrastructure failures) is an
    explicit input. *)

From Stdlib Require Import ZArith String Ascii List Bool Lia.
From Stdlib Require Import Strings.Byte.
From stdpp Require Import base strings pretty gmap.
Import ListNotations.

Local Open Scope Z_scope.
Local Open Scope string_scope.

(** ** Go values used by the handlers *)

(** [time.Time] is an instant, kept as nanoseconds since the UNIX epoch;
    [time.Duration] is a nanosecond count. *)
Definition Time := Z.
Definition Duration := Z.

Definition Second : Duration := 1000000000.
Definition Minute : Duration := 60 * Second.

(** [t.Add(d)] *)
Definition Time_Add (t : Time) (d : Duration) : Time := t + d.

(** [t.Unix()]: whole seconds since the epoch, rounded towards minus
    infinity. *)
Definition Time_Unix (t : Time) : Z := t / Second.

(** The zero value of [time.Time]: January 1, year 1, 00:00:00 UTC. *)
Definition zero_Time : Time := (-62135596800) * Second.

(** [int(x)] for an [int64] [x], and [int64(x)] for an [int] [x]: [int] has
    64 bits on the targets the server is built for, so both conversions
    keep the value. *)
Definition int_of_int64 (x : Z) : Z := x.
Definition int64_of_int (x : Z) : Z := x.

(** [fmt.Sprintf("%x", bs)] on a byte array: two lower-case hexadecimal
    digits per byte. *)
Definition hex_digits : list ascii := list_ascii_of_string "0123456789abcdef".

Definition hex_digit (n : N) : ascii := nth (N.to_nat n) hex_digits "0"%char.

Definition hex_byte (b : byte) : string :=
  let n := Byte.to_N b in
  String (hex_digit (n / 16)) (String (hex_digit (n mod 16)) EmptyString).

Fixpoint Sprintf_x (bs : list byte) : string :=
  match bs with
  | [] => EmptyString
  | b :: rest => hex_byte b ++ Sprintf_x rest
  end.

(** A value of type [interface{}], as stored in [sess.Values]. *)
Inductive Value :=
| VString (s : string)
| VInt (n : Z).

(** Results of calls that return [(T, error)]; [Err] carries [err.Error()]. *)
Inductive result (A : Type) :=
| Ok (a : A)
| Err (msg : string).
Arguments Ok {A} a.
Arguments Err {A} msg.

(** ** Data model (the structs of the source) *)

Definition defaultSessionIDKey : string := "SESSIONID".

Module User.
Record t := mk {
  ID : Z;
  Name : string;
  DisplayName : string;
  Description : string;
  Password : string;
  CreatedAt : Time;
  UpdatedAt : Time
}.
(** [User{}] *)
Definition zero : t := mk 0 "" "" "" "" zero_Time zero_Time.
End User.

Module Session.
Record t := mk {
  ID : string;
  UserID : Z;
  Expires : Z
}.
(** [Session{}] *)
Definition zero : t := mk "" 0 0.
End Session.

Record PostUserRequest := {
  pu_Name : string;
  pu_DisplayName : string;
  pu_Description : string;
  pu_Password : string
}.

Record LoginRequest := {
  lr_UserName : string;
  lr_Password : string
}.

(** [json.Marshal] of a [User]: the struct has no [json] tags, so every
    exported field is written under its Go name, in declaration order. *)
Inductive JSONField :=
| JNumber (n : Z)
| JString (s : string)
| JTime (t : Time).

Definition json_Marshal_User (u : User.t) : list (string * JSONField) :=
  [ ("ID", JNumber (User.ID u));
    ("Name", JString (User.Name u));
    ("DisplayName", JString (User.DisplayName u));
    ("Description", JString (User.Description u));
    ("Password", JString (User.Password u));
    ("CreatedAt", JTime (User.CreatedAt u));
    ("UpdatedAt", JTime (User.UpdatedAt u)) ].

(** ** What the handlers take from outside *)

(** Library and engine functions the source calls but does not define. *)
Class Externals := {
  (** [sha512.Sum512] *)
  sha512_Sum512 : list byte -> list byte;
  (** the engine's [=] between a character column and a string parameter
      (it depends on the column's collation) *)
  sql_str_eq : string -> string -> bool;
  (** the engine's [=] between an integer column and a string parameter *)
  sql_int_eq : Z -> string -> bool
}.

(** Per-request inputs: the clocks, the UUID source, and the failures that
    the infrastructure may inject into each call ([None]: no failure). *)
Record Env := {
  time_Now : Time;
  uuid_NewString : string;
  store_now : Time;
  err_BeginTxx : option string;
  err_Exec : option string;
  err_Commit : option string;
  err_Get_session : option string;
  err_Get_user : option string;
  err_session_Save : option string
}.

(** The part of [echo.Context] the handlers read: the decoded JSON body
    ([None] when decoding fails), the result of
    [session.Get(defaultSessionIDKey, c)] (the values of the session cookie,
    empty when the request has none) and the path parameters. *)
Record echo_Context (Body : Type) := {
  json_Decode : option Body;
  session_Get : result (gmap string Value);
  Param : string -> string
}.
Arguments json_Decode {Body} _.
Arguments session_Get {Body} _.
Arguments Param {Body} _ _.

(** ** Responses *)

Inductive Response :=
| JSON (code : Z) (body : list (string * JSONField))
| NoContent (code : Z)
| HTTPError (code : Z) (message : string)
| Panic.

Definition StatusOK : Z := 200.
Definition StatusCreated : Z := 201.
Definition StatusBadRequest : Z := 400.
Definition StatusUnauthorized : Z := 401.
Definition StatusForbidden : Z := 403.
Definition StatusInternalServerError : Z := 500.

(** The cookie written by [sess.Save]. *)
Record Cookie := {
  cookie_name : string;
  cookie_Values : gmap string Value;
  cookie_MaxAge : Z;
  cookie_Path : string
}.

(** ** The store *)

(** Modelled from the spec: the SQL schema, which the Go sources do not
    contain; the spec gives it as [users(id, name UNIQUE, display_name, description,
    password, created_at, updated_at)] and [sessions(id PK, user_id,
    expires)].  A database state is the rows of the two tables, in insertion
    order, and the next id the store will generate for a user. *)
Record DB := {
  users : list User.t;
  sessions : list Session.t;
  users_auto_increment : Z
}.

(** The statements the handlers pass to [NamedExecContext]. *)
Inductive ExecStmt :=
| INSERT_INTO_users (u : User.t)
| INSERT_INTO_sessions (s : Session.t)
| DELETE_WHERE_id (table : string) (s : Session.t).

Record World := {
  db : DB;
  logger : list string;
  executed : list ExecStmt;
  set_cookie : list Cookie
}.

Section Store.
Context {ext : Externals}.

(** Modelled from the spec: the schema's defaults, which the Go sources do
    not contain.  The row stored for
    [INSERT INTO users (name, display_name, description, password)]: the
    four named columns come from the struct, the id and both timestamps are
    generated by the store. *)
Definition stored_User (d : DB) (now : Time) (u : User.t) : User.t :=
  User.mk (users_auto_increment d) (User.Name u) (User.DisplayName u)
          (User.Description u) (User.Password u) now now.

Definition name_taken (d : DB) (name : string) : bool :=
  existsb (fun r => sql_str_eq (User.Name r) name) (users d).

Definition session_id_taken (d : DB) (id : string) : bool :=
  existsb (fun r => sql_str_eq (Session.ID r) id) (sessions d).

(** Modelled from the spec: the schema's keys and tables, which the Go
    sources do not contain.  [exec] runs one statement on a database state:
    a user name already present (under the engine's comparison) violates
    the unique key on [users.name]; a session id already present violates
    the primary key of [sessions]; a statement on a table other than
    [users] and [sessions] is an error. *)
Definition exec (now : Time) (st : ExecStmt) (d : DB) : result DB :=
  match st with
  | INSERT_INTO_users u =>
      if name_taken d (User.Name u)
      then Err "Error 1062: Duplicate entry for key users.name"
      else Ok {| users := users d ++ [stored_User d now u];
                 sessions := sessions d;
                 users_auto_increment := users_auto_increment d + 1 |}
  | INSERT_INTO_sessions s =>
      if session_id_taken d (Session.ID s)
      then Err "Error 1062: Duplicate entry for key sessions.PRIMARY"
      else Ok {| users := users d;
                 sessions := sessions d ++ [s];
                 users_auto_increment := users_auto_increment d |}
  | DELETE_WHERE_id table s =>
      if String.eqb table "sessions"
      then Ok {| users := users d;
                 sessions :=
                   List.filter
                     (fun r => negb (sql_str_eq (Session.ID r) (Session.ID s)))
                     (sessions d);
                 users_auto_increment := users_auto_increment d |}
      else if String.eqb table "users"
      then Ok {| users :=
                   List.filter
                     (fun r => negb (sql_int_eq (User.ID r) (Session.ID s)))
                     (users d);
                 sessions := sessions d;
                 users_auto_increment := users_auto_increment d |}
      else Err ("Error 1146: Table " ++ table ++ " doesn't exist")
  end.

Definition ErrNoRows : string := "sql: no rows in result set".

(** [Get(&user, "SELECT * FROM users WHERE name = ?", name)]: the first
    matching row, every column scanned. *)
Definition select_user_by_name (name : string) (d : DB) : result User.t :=
  match List.find (fun r => sql_str_eq (User.Name r) name) (users d) with
  | Some r => Ok r
  | None => Err ErrNoRows
  end.

(** [Get(&userSession, "SELECT user_id, expires FROM sessions where id = ?", id)]:
    only the two selected columns are scanned into [Session{}]; its [ID]
    keeps the zero value. *)
Definition select_session_by_id (id : string) (d : DB) : result Session.t :=
  match List.find (fun r => sql_str_eq (Session.ID r) id) (sessions d) with
  | Some r => Ok (Session.mk (Session.ID Session.zero) (Session.UserID r) (Session.Expires r))
  | None => Err ErrNoRows
  end.

(** [Get(&user, "SELECT name, display_name, description, created_at,
    updated_at FROM users WHERE id = ?", userID)]: the five selected
    columns are scanned into [User{}]; [ID] and [Password] keep the zero
    value. *)
Definition select_profile_by_id (userID : string) (d : DB) : result User.t :=
  match List.find (fun r => sql_int_eq (User.ID r) userID) (users d) with
  | Some r => Ok (User.mk (User.ID User.zero) (User.Name r) (User.DisplayName r)
                          (User.Description r) (User.Password User.zero)
                          (User.CreatedAt r) (User.UpdatedAt r))
  | None => Err ErrNoRows
  end.
End Store.

(** ** The handler monad: world passing with early return *)

Inductive Step (A : Type) :=
| Next (a : A)
| Return (r : Response).
Arguments Next {A} a.
Arguments Return {A} r.

Definition M (A : Type) : Type := World -> Step A * World.

Definition ret {A} (a : A) : M A := fun w => (Next a, w).

Definition bind {A B} (m : M A) (k : A -> M B) : M B :=
  fun w =>
    match m w with
    | (Next a, w') => k a w'
    | (Return r, w') => (Return r, w')
    end.

(** [return c.JSON(...)], [return echo.NewHTTPError(...)] and the like. *)
Definition reply {A} (r : Response) : M A := fun w => (Return r, w).

Declare Scope handler_scope.
Delimit Scope handler_scope with handler.
Notation "x <- m ;; k" := (bind m (fun x => k))
  (at level 100, m at next level, right associativity) : handler_scope.
Notation "m ;; k" := (bind m (fun _ => k))
  (at level 100, right associativity) : handler_scope.

(** A handler's response and the world it leaves. *)
Definition run (h : M Response) (w : World) : Response * World :=
  match h w with
  | (Next r, w') => (r, w')
  | (Return r, w') => (r, w')
  end.

Definition with_db (w : World) (d : DB) : World :=
  {| db := d; logger := logger w; executed := executed w;
     set_cookie := set_cookie w |}.

Definition note_executed (st : ExecStmt) : M unit :=
  fun w => (Next tt, {| db := db w; logger := logger w;
                        executed := executed w ++ [st];
                        set_cookie := set_cookie w |}).

(** [c.Logger().Warn(msg)] *)
Definition Logger_Warn (msg : string) : M unit :=
  fun w => (Next tt, {| db := db w; logger := logger w ++ [msg];
                        executed := executed w; set_cookie := set_cookie w |}).

(** [sessionID.(string)]: the single-value type assertion panics on a value
    of another dynamic type. *)
Definition assert_string (v : Value) : M string :=
  match v with
  | VString s => ret s
  | VInt _ => reply Panic
  end.

(** ** Database calls

    A transaction works on its own copy of the database state, which
    [Commit] installs; a statement on [dbConn] itself takes effect at once.
    Each call first consults the failure injected for it. *)
Section Calls.
Context {ext : Externals}.

Definition dbConn_BeginTxx (env : Env) : M (result DB) :=
  fun w =>
    match err_BeginTxx env with
    | Some e => (Next (Err e), w)
    | None => (Next (Ok (db w)), w)
    end.

Definition tx_NamedExecContext (env : Env) (st : ExecStmt) (tx : DB) : M (result DB) :=
  (note_executed st ;;
   match err_Exec env with
   | Some e => ret (Err e)
   | None => ret (exec (store_now env) st tx)
   end)%handler.

Definition tx_Rollback (tx : DB) : M unit := ret tt.

Definition tx_Commit (env : Env) (tx : DB) : M (result unit) :=
  fun w =>
    match err_Commit env with
    | Some e => (Next (Err e), w)
    | None => (Next (Ok tt), with_db w tx)
    end.

Definition tx_Get_user_by_name (env : Env) (name : string) (tx : DB) : M (result User.t) :=
  match err_Get_user env with
  | Some e => ret (Err e)
  | None => ret (select_user_by_name name tx)
  end.

Definition dbConn_NamedExecContext (env : Env) (st : ExecStmt) : M (result unit) :=
  (note_executed st ;;
   match err_Exec env with
   | Some e => ret (Err e)
   | None =>
       fun w =>
         match exec (store_now env) st (db w) with
         | Ok d => (Next (Ok tt), with_db w d)
         | Err e => (Next (Err e), w)
         end
   end)%handler.

Definition dbConn_Get_session (env : Env) (id : string) : M (result Session.t) :=
  fun w =>
    match err_Get_session env with
    | Some e => (Next (Err e), w)
    | None => (Next (select_session_by_id id (db w)), w)
    end.

Definition dbConn_Get_profile (env : Env) (userID : string) : M (result User.t) :=
  fun w =>
    match err_Get_user env with
    | Some e => (Next (Err e), w)
    | None => (Next (select_profile_by_id userID (db w)), w)
    end.

(** [sess.Save(c.Request(), c.Response())] *)
Definition sess_Save (env : Env) (ck : Cookie) : M (result unit) :=
  fun w =>
    match err_session_Save env with
    | Some e => (Next (Err e), w)
    | None => (Next (Ok tt),
               {| db := db w; logger := logger w; executed := executed w;
                  set_cookie := set_cookie w ++ [ck] |})
    end.
End Calls.

(** ** The handlers *)
Section Handlers.
Context {ext : Externals}.
Local Open Scope handler_scope.

(** [POST /user] *)
Definition userRegisterHandler (env : Env) (c : echo_Context PostUserRequest)
  : M Response :=
  match json_Decode c with
  | None => reply (HTTPError StatusBadRequest "failed to decode the request body as json")
  | Some req =>
    let hashedPassword := sha512_Sum512 (list_byte_of_string (pu_Password req)) in
    let user :=
      (* the literal names four fields; [ID], [CreatedAt] and [UpdatedAt]
         keep their zero values *)
      {| User.ID := 0;
         User.Name := pu_Name req;
         User.DisplayName := pu_DisplayName req;
         User.Description := pu_Description req;
         User.Password := Sprintf_x hashedPassword;
         User.CreatedAt := zero_Time;
         User.UpdatedAt := zero_Time |} in
    r <- dbConn_BeginTxx env ;;
    match r with
    | Err err => reply (HTTPError StatusInternalServerError err)
    | Ok tx =>
      r <- tx_NamedExecContext env (INSERT_INTO_users user) tx ;;
      match r with
      | Err err =>
          tx_Rollback tx ;;
          reply (HTTPError StatusInternalServerError err)
      | Ok tx =>
        r <- tx_Commit env tx ;;
        match r with
        | Err err => reply (HTTPError StatusInternalServerError err)
        | Ok _ => reply (JSON StatusCreated (json_Marshal_User user))
        end
      end
    end
  end.

(** [POST /login] *)
Definition loginHandler (env : Env) (c : echo_Context LoginRequest)
  : M Response :=
  match json_Decode c with
  | None => reply (HTTPError StatusBadRequest "failed to decode the request body as json")
  | Some req =>
    r <- dbConn_BeginTxx env ;;
    match r with
    | Err err => reply (HTTPError StatusInternalServerError err)
    | Ok tx =>
      r <- tx_Get_user_by_name env (lr_UserName req) tx ;;
      match r with
      | Err err => reply (HTTPError StatusInternalServerError err)
      | Ok user =>
        let hashedPassword :=
          Sprintf_x (sha512_Sum512 (list_byte_of_string (lr_Password req))) in
        if negb (String.eqb (lr_UserName req) (User.Name user))
           || negb (String.eqb hashedPassword (User.Password user))
        then reply (HTTPError StatusUnauthorized "invalid username or password")
        else
          let sessionEndAt := Time_Add (time_Now env) (10 * Minute) in
          let sessionID := uuid_NewString env in
          let userSession :=
            {| Session.ID := sessionID;
               Session.UserID := User.ID user;
               Session.Expires := int_of_int64 (Time_Unix sessionEndAt) |} in
          r <- tx_NamedExecContext env (INSERT_INTO_sessions userSession) tx ;;
          match r with
          | Err err =>
              tx_Rollback tx ;;
              reply (HTTPError StatusInternalServerError err)
          | Ok tx =>
            r <- tx_Commit env tx ;;
            match r with
            | Err err => reply (HTTPError StatusInternalServerError err)
            | Ok _ =>
              match session_Get c with
              | Err err => reply (HTTPError StatusInternalServerError err)
              | Ok sess_Values =>
                let sess :=
                  {| cookie_name := defaultSessionIDKey;
                     cookie_Values :=
                       <[defaultSessionIDKey := VString (Session.ID userSession)]>
                         sess_Values;
                     cookie_MaxAge := 600;
                     cookie_Path := "/" |} in
                r <- sess_Save env sess ;;
                match r with
                | Err err => reply (HTTPError StatusInternalServerError err)
                | Ok _ => reply (NoContent StatusOK)
                end
              end
            end
          end
      end
    end
  end.

(** [GET /user/:userid] *)
Definition userHandler {Body} (env : Env) (c : echo_Context Body)
  : M Response :=
  match session_Get c with
  | Err err => reply (HTTPError StatusInternalServerError err)
  | Ok sess_Values =>
    match sess_Values !! defaultSessionIDKey with
    | None => reply (HTTPError StatusForbidden "")
    | Some sessionID =>
      id <- assert_string sessionID ;;
      r <- dbConn_Get_session env id ;;
      match r with
      | Err _ => reply (HTTPError StatusForbidden "")
      | Ok userSession =>
        let now := time_Now env in
        if Time_Unix now >? int64_of_int (Session.Expires userSession)
        then
          r <- dbConn_NamedExecContext env (DELETE_WHERE_id "sessoins" userSession) ;;
          match r with
          | Err _ => Logger_Warn "failed to delete the session info from DB"
          | Ok _ => ret tt
          end ;;
          reply (HTTPError StatusUnauthorized "session has expired")
        else
          let userID := Param c "user_id" in
          r <- dbConn_Get_profile env userID ;;
          match r with
          | Err _ => reply (HTTPError StatusUnauthorized "session has expired")
          | Ok user => reply (JSON StatusOK (json_Marshal_User user))
          end
      end
    end
  end.
End Handlers.

(** ** Sequences of requests *)

Inductive Op :=
| PostUser (env : Env) (c : echo_Context PostUserRequest)
| PostLogin (env : Env) (c : echo_Context LoginRequest)
| GetUser (env : Env) (c : echo_Context unit).

Section Serving.
Context {ext : Externals}.

Definition serve (o : Op) (w : World) : Response * World :=
  match o with
  | PostUser env c => run (userRegisterHandler env c) w
  | PostLogin env c => run (loginHandler env c) w
  | GetUser env c => run (userHandler env c) w
  end.

Fixpoint serve_all (os : list Op) (w : World) : World :=
  match os with
  | [] => w
  | o :: rest => serve_all rest (snd (serve o w))
  end.
End Serving.

(** [Login]'s credential test, as the source writes it. *)
Definition credentials_mismatch {ext : Externals} (req : LoginRequest) (user : User.t) : bool :=
  negb (String.eqb (lr_UserName req) (User.Name user))
  || negb (String.eqb (Sprintf_x (sha512_Sum512 (list_byte_of_string (lr_Password req))))
                      (User.Password user)).

(** No injected failure. *)
Definition healthy (env : Env) : Prop :=
  err_BeginTxx env = None /\ err_Exec env = None /\ err_Commit env = None /\
  err_Get_session env = None /\ err_Get_user env = None /\
  err_session_Save env = None.

(** ** A concrete instance and the benchmark's pre-test scenario

    To run the handlers an instance of [Externals] is needed.  The digest
    below is a stand-in for SHA-512 (every theorem is proved for an
    arbitrary instance); strings compare byte for byte, and an integer
    column equals a string parameter that spells it in decimal. *)
Definition sample_externals : Externals :=
  {| sha512_Sum512 := fun bs => List.rev bs;
     sql_str_eq := String.eqb;
     sql_int_eq := fun n s => String.eqb (pretty n) s |}.

Definition empty_DB : DB :=
  {| users := []; sessions := []; users_auto_increment := 1 |}.

Definition initial_World : World :=
  {| db := empty_DB; logger := []; executed := []; set_cookie := [] |}.

Definition env_at (now : Time) (uuid : string) : Env :=
  {| time_Now := now; uuid_NewString := uuid; store_now := now;
     err_BeginTxx := None; err_Exec := None; err_Commit := None;
     err_Get_session := None; err_Get_user := None;
     err_session_Save := None |}.

Definition no_params : string -> string := fun _ => "".

Definition path_user_id (id : string) : string -> string :=
  fun name => if String.eqb name "user_id" then id else "".

(** The requests of [bench/scenario/core_pretest.go]. *)
Definition pretest_PostUser : echo_Context PostUserRequest :=
  {| json_Decode := Some {| pu_Name := "test"; pu_DisplayName := "test";
                            pu_Description := "blah blah blah";
                            pu_Password := "s3cr3t" |};
     session_Get := Ok ∅;
     Param := no_params |}.

Definition pretest_Login : echo_Context LoginRequest :=
  {| json_Decode := Some {| lr_UserName := "test"; lr_Password := "s3cr3t" |};
     session_Get := Ok ∅;
     Param := no_params |}.

Definition cookie_with (token : string) : gmap string Value :=
  {[ defaultSessionIDKey := VString token ]}.

Definition get_user_with (token id : string) : echo_Context unit :=
  {| json_Decode := None;
     session_Get := Ok (cookie_with token);
     Param := path_user_id id |}.

Definition get_user_without_cookie (id : string) : echo_Context unit :=
  {| json_Decode := None; session_Get := Ok ∅; Param := path_user_id id |}.

Definition t0 : Time := 1700000000 * Second + 250000000.
Definition uuid1 : string := "0b6f1c1e-7a53-4c1b-9d5e-2f1a6c0e8b11".
Definition uuid2 : string := "6c9a2d40-1e0f-4b7a-8f63-90b1d4f7a2c3".

Definition after_register : World :=
  snd (run (userRegisterHandler (ext := sample_externals) (env_at t0 uuid1) pretest_PostUser)
           initial_World).

Definition after_login : World :=
  snd (run (loginHandler (ext := sample_externals) (env_at (t0 + Second) uuid1) pretest_Login)
           after_register).

(** ** Statements used by the theorems *)
Section Statements.
Context {ext : Externals}.

(** The [user] value [userRegisterHandler] builds from a request. *)
Definition registered_User (req : PostUserRequest) : User.t :=
  {| User.ID := 0;
     User.Name := pu_Name req;
     User.DisplayName := pu_DisplayName req;
     User.Description := pu_Description req;
     User.Password := Sprintf_x (sha512_Sum512 (list_byte_of_string (pu_Password req)));
     User.CreatedAt := zero_Time;
     User.UpdatedAt := zero_Time |}.

(** "The value returned to the client is the stored User record". *)
Definition returns_stored_User (env : Env) (c : echo_Context PostUserRequest)
           (w : World) : Prop :=
  forall code body w',
    run (userRegisterHandler env c) w = (JSON code body, w') ->
    exists row, In row (users (db w')) /\ body = json_Marshal_User row.

(** "A login whose user name is unknown, or whose password digest differs
    from the stored hash, fails with Unauthorized". *)
Definition bad_credentials (req : LoginRequest) (d : DB) : Prop :=
  name_taken d (lr_UserName req) = false \/
  exists user,
    select_user_by_name (lr_UserName req) d = Ok user /\
    Sprintf_x (sha512_Sum512 (list_byte_of_string (lr_Password req)))
      <> User.Password user.

Definition rejects_bad_credentials (env : Env) (c : echo_Context LoginRequest)
           (w : World) : Prop :=
  forall req,
    json_Decode c = Some req ->
    bad_credentials req (db w) ->
    exists msg, fst (run (loginHandler env c) w) = HTTPError StatusUnauthorized msg.

(** The session row [loginHandler] inserts and the cookie it saves. *)
Definition login_Session (env : Env) (user : User.t) : Session.t :=
  {| Session.ID := uuid_NewString env;
     Session.UserID := User.ID user;
     Session.Expires := Time_Unix (time_Now env) + 600 |}.

Definition login_Cookie (env : Env) (sess_Values : gmap string Value) : Cookie :=
  {| cookie_name := "SESSIONID";
     cookie_Values := <["SESSIONID" := VString (uuid_NewString env)]> sess_Values;
     cookie_MaxAge := 600;
     cookie_Path := "/" |}.

(** What [userHandler] answers once the session check has passed: a
    function of the path parameter and the users table only. *)
Definition profile_reply (env : Env) (userID : string) (d : DB) : Response :=
  match err_Get_user env with
  | Some _ => HTTPError StatusUnauthorized "session has expired"
  | None =>
      match select_profile_by_id userID d with
      | Ok user => JSON StatusOK (json_Marshal_User user)
      | Err _ => HTTPError StatusUnauthorized "session has expired"
      end
  end.

(** The world once a statement has been handed to the store. *)
Definition sent (st : ExecStmt) (w : World) : World :=
  {| db := db w; logger := logger w; executed := executed w ++ [st];
     set_cookie := set_cookie w |}.

(** [tx.GetContext(ctx, &user, "SELECT * FROM users WHERE name = ?", name)]
    together with the failure injected for it. *)
Definition user_lookup (env : Env) (name : string) (d : DB) : result User.t :=
  match err_Get_user env with
  | Some e => Err e
  | None => select_user_by_name name d
  end.

(** [dbConn.GetContext(ctx, &userSession, "SELECT user_id, expires FROM
    sessions where id = ?", id)] together with the failure injected for
    it. *)
Definition session_lookup (env : Env) (id : string) (d : DB) : result Session.t :=
  match err_Get_session env with
  | Some e => Err e
  | None => select_session_by_id id d
  end.

(** The statement [userHandler] hands to the store for an expired
    session, and the store's answer to it. *)
Definition expiry_DELETE (userSession : Session.t) : ExecStmt :=
  DELETE_WHERE_id "sessoins" userSession.

Definition exec_result (env : Env) (st : ExecStmt) (d : DB) : result DB :=
  match err_Exec env with
  | Some e => Err e
  | None => exec (store_now env) st d
  end.

Definition warned (w : World) : World :=
  {| db := db w;
     logger := logger w ++ ["failed to delete the session info from DB"];
     executed := executed w; set_cookie := set_cookie w |}.

(** "The request carries a session token that is found in the session
    store": the cookie store hands over a session, the session holds a
    token, and the lookup of that token returns a row. *)
Definition presents_known_token {Body} (env : Env) (c : echo_Context Body)
           (d : DB) : Prop :=
  exists vals token s,
    session_Get c = Ok vals /\
    vals !! defaultSessionIDKey = Some (VString token) /\
    session_lookup env token d = Ok s.

(** "Every call that carries no token, or a token the store does not find,
    fails with Forbidden". *)
Definition forbids_without_known_token {Body} (env : Env) (c : echo_Context Body)
           (w : World) : Prop :=
  ~ presents_known_token env c (db w) ->
  fst (run (userHandler env c) w) = HTTPError StatusForbidden "".

(** At most one row per user name. *)
Definition names_unique (d : DB) : Prop := NoDup (map User.Name (users d)).
End Statements.

Definition login_as (name password : string) : echo_Context LoginRequest :=
  {| json_Decode := Some {| lr_UserName := name; lr_Password := password |};
     session_Get := Ok ∅;
     Param := no_params |}.

Definition post_user (name password : string) : echo_Context PostUserRequest :=
  {| json_Decode := Some {| pu_Name := name; pu_DisplayName := name;
                            pu_Description := ""; pu_Password := password |};
     session_Get := Ok ∅;
     Param := no_params |}.

(** A second user and a session for each of the two. *)
Definition two_users_logged_in : World :=
  serve_all (ext := sample_externals)
    [ PostUser (env_at (t0 + 2 * Second) uuid2) (post_user "other" "hunter2");
      PostLogin (env_at (t0 + 3 * Second) uuid2) (login_as "other" "hunter2") ]
    after_login.

(** The rows and values the scenario produces. *)
Definition pretest_request : PostUserRequest :=
  {| pu_Name := "test"; pu_DisplayName := "test";
     pu_Description := "blah blah blah"; pu_Password := "s3cr3t" |}.

Definition pretest_row : User.t :=
  {| User.ID := 1; User.Name := "test"; User.DisplayName := "test";
     User.Description := "blah blah blah"; User.Password := "743372633373";
     User.CreatedAt := t0; User.UpdatedAt := t0 |}.

Definition pretest_body : list (string * JSONField) :=
  [ ("ID", JNumber 0); ("Name", JString "test"); ("DisplayName", JString "test");
    ("Description", JString "blah blah blah"); ("Password", JString "743372633373");
    ("CreatedAt", JTime zero_Time); ("UpdatedAt", JTime zero_Time) ].

(** What the session lookup scans for the two sessions: the id column is
    not selected. *)
Definition fetched_session1 : Session.t :=
  {| Session.ID := ""; Session.UserID := 1; Session.Expires := 1700000601 |}.

Definition fetched_session2 : Session.t :=
  {| Session.ID := ""; Session.UserID := 2; Session.Expires := 1700000603 |}.

Definition env_live : Env := env_at (t0 + 5 * Second) uuid2.
Definition env_late : Env := env_at (t0 + 700 * Second) uuid2.

(** ** Reading a hexadecimal string back

    The inverse of [Sprintf_x], used to show that the encoding loses
    nothing. *)
Definition is_hex_digit (a : ascii) : bool :=
  let n := N_of_ascii a in
  ((48 <=? n) && (n <=? 57) || (97 <=? n) && (n <=? 102))%N.

Definition hex_value (a : ascii) : option N :=
  let n := N_of_ascii a in
  if ((48 <=? n) && (n <=? 57))%N then Some (n - 48)%N
  else if ((97 <=? n) && (n <=? 102))%N then Some (n - 87)%N
  else None.

Definition unhex_byte (hi lo : ascii) : option byte :=
  match hex_value hi, hex_value lo with
  | Some h, Some l => Byte.of_N (16 * h + l)
  | _, _ => None
  end.

Fixpoint unhex (s : string) : option (list byte) :=
  match s with
  | EmptyString => Some []
  | String hi (String lo rest) =>
      match unhex_byte hi lo, unhex rest with
      | Some b, Some bs => Some (b :: bs)
      | _, _ => None
      end
  | String _ EmptyString => None
  end.

(** A request whose SESSIONID cookie the cookie store cannot decode. *)
Definition get_user_with_bad_cookie (id : string) : echo_Context unit :=
  {| json_Decode := None;
     session_Get := Err "securecookie: the value is not valid";
     Param := path_user_id id |}.

(** More requests and inputs for the concrete runs. *)
Definition env_cookie_store_down : Env :=
  {| time_Now := t0 + Second; uuid_NewString := uuid1; store_now := t0 + Second;
     err_BeginTxx := None; err_Exec := None; err_Commit := None;
     err_Get_session := None; err_Get_user := None;
     err_session_Save := Some "securecookie: the value is too long" |}.

Definition env_at_expiry : Env := env_at (1700000601 * Second + 999999999) uuid2.
Definition env_past_expiry : Env := env_at (1700000602 * Second) uuid2.

Definition login_session1 : Session.t :=
  {| Session.ID := uuid1; Session.UserID := 1; Session.Expires := 1700000601 |}.

(** * Properties *)

(** ** Go primitives *)

Example Sprintf_x_sample : Sprintf_x [x00; xff; x1a; x7f] = "00ff1a7f".
Proof. reflexivity. Qed.

Lemma String_length_app (s1 s2 : string) :
  String.length (s1 ++ s2) = (String.length s1 + String.length s2)%nat.
Proof. induction s1 as [|a s1 IH]; simpl; [reflexivity | now rewrite IH]. Qed.

Lemma Sprintf_x_length (bs : list byte) :
  String.length (Sprintf_x bs) = (2 * List.length bs)%nat.
Proof.
  induction bs as [|b bs IH]; [reflexivity|].
  cbn [Sprintf_x]. rewrite String_length_app, IH.
  unfold hex_byte. cbn [String.length List.length]. lia.
Qed.

(** Ten minutes later is six hundred UNIX seconds later, whatever the
    sub-second part of the instant. *)
Lemma Unix_Add_10_Minute (t : Time) :
  Time_Unix (Time_Add t (10 * Minute)) = Time_Unix t + 600.
Proof.
  unfold Time_Unix, Time_Add, Minute, Second.
  replace (t + 10 * (60 * 1000000000)) with (t + 600 * 1000000000) by lia.
  apply Z.div_add. lia.
Qed.

(** ** Running the handlers *)

Ltac unfold_calls :=
  unfold run, dbConn_BeginTxx, tx_NamedExecContext, tx_Rollback, tx_Commit,
    tx_Get_user_by_name, dbConn_NamedExecContext, dbConn_Get_session,
    dbConn_Get_profile, sess_Save, note_executed, Logger_Warn, assert_string,
    with_db in *;
  unfold bind, reply, ret in *.

Ltac case_scrutinee :=
  match goal with
  | |- context [match ?x with _ => _ end] =>
      lazymatch x with
      | context [match _ with _ => _ end] => fail
      | _ => destruct x eqn:?
      end
  end.

Ltac handler_cases := unfold_calls; repeat (cbn beta iota zeta; case_scrutinee).

Section Register.
Context {ext : Externals}.

(** [userRegisterHandler] as a decision table. *)
Lemma userRegisterHandler_table env c w :
  run (userRegisterHandler env c) w =
  match json_Decode c with
  | None =>
      (HTTPError StatusBadRequest "failed to decode the request body as json", w)
  | Some req =>
      let st := INSERT_INTO_users (registered_User req) in
      match err_BeginTxx env with
      | Some e => (HTTPError StatusInternalServerError e, w)
      | None =>
          match err_Exec env with
          | Some e => (HTTPError StatusInternalServerError e, sent st w)
          | None =>
              match exec (store_now env) st (db w) with
              | Err e => (HTTPError StatusInternalServerError e, sent st w)
              | Ok d =>
                  match err_Commit env with
                  | Some e => (HTTPError StatusInternalServerError e, sent st w)
                  | None =>
                      (JSON StatusCreated (json_Marshal_User (registered_User req)),
                       with_db (sent st w) d)
                  end
              end
          end
      end
  end.
Proof.
  unfold userRegisterHandler, registered_User, sent.
  destruct (json_Decode c) as [req|]; [|reflexivity].
  unfold_calls. cbn beta iota zeta.
  destruct (err_BeginTxx env); [reflexivity|].
  destruct (err_Exec env); [reflexivity|].
  cbn beta iota zeta.
  match goal with |- context [exec ?n ?s ?d] => destruct (exec n s d) end;
    [|reflexivity].
  destruct (err_Commit env); reflexivity.
Qed.

(** A successful registration: the request decoded, no call failed, the
    name was free. *)
Lemma register_success env c w code body w' :
  run (userRegisterHandler env c) w = (JSON code body, w') ->
  exists req,
    json_Decode c = Some req /\
    code = StatusCreated /\
    body = json_Marshal_User (registered_User req) /\
    name_taken (db w) (pu_Name req) = false /\
    db w' = {| users := users (db w)
                        ++ [stored_User (db w) (store_now env) (registered_User req)];
               sessions := sessions (db w);
               users_auto_increment := users_auto_increment (db w) + 1 |}.
Proof.
  rewrite userRegisterHandler_table.
  destruct (json_Decode c) as [req|]; [|discriminate].
  cbn zeta. destruct (err_BeginTxx env); [discriminate|].
  destruct (err_Exec env); [discriminate|].
  unfold exec. cbn [registered_User User.Name].
  destruct (name_taken (db w) (pu_Name req)) eqn:Hfree; [discriminate|].
  destruct (err_Commit env); [discriminate|].
  intros H. injection H as <- <- <-.
  exists req. repeat split; solve [reflexivity | assumption].
Qed.

(** With nothing failing and a free name, the registration is answered
    with 201. *)
Lemma register_succeeds env c req w :
  healthy env ->
  json_Decode c = Some req ->
  name_taken (db w) (pu_Name req) = false ->
  fst (run (userRegisterHandler env c) w)
  = JSON StatusCreated (json_Marshal_User (registered_User req)).
Proof.
  intros (Hb & He & Hc & _) Hreq Hfree.
  rewrite userRegisterHandler_table, Hreq, Hb. cbn zeta. rewrite He.
  unfold exec. cbn [registered_User User.Name]. rewrite Hfree, Hc. reflexivity.
Qed.
End Register.

Section Login.
Context {ext : Externals}.

(** [loginHandler] as a decision table. *)
Lemma loginHandler_table env c w :
  run (loginHandler env c) w =
  match json_Decode c with
  | None =>
      (HTTPError StatusBadRequest "failed to decode the request body as json", w)
  | Some req =>
      match err_BeginTxx env with
      | Some e => (HTTPError StatusInternalServerError e, w)
      | None =>
          match user_lookup env (lr_UserName req) (db w) with
          | Err e => (HTTPError StatusInternalServerError e, w)
          | Ok user =>
              if credentials_mismatch req user
              then (HTTPError StatusUnauthorized "invalid username or password", w)
              else
                let st := INSERT_INTO_sessions (login_Session env user) in
                match err_Exec env with
                | Some e => (HTTPError StatusInternalServerError e, sent st w)
                | None =>
                    match exec (store_now env) st (db w) with
                    | Err e => (HTTPError StatusInternalServerError e, sent st w)
                    | Ok d =>
                        match err_Commit env with
                        | Some e => (HTTPError StatusInternalServerError e, sent st w)
                        | None =>
                            let w2 := with_db (sent st w) d in
                            match session_Get c with
                            | Err e => (HTTPError StatusInternalServerError e, w2)
                            | Ok sess_Values =>
                                match err_session_Save env with
                                | Some e => (HTTPError StatusInternalServerError e, w2)
                                | None =>
                                    (NoContent StatusOK,
                                     {| db := d; logger := logger w;
                                        executed := executed w ++ [st];
                                        set_cookie :=
                                          set_cookie w
                                          ++ [login_Cookie env sess_Values] |})
                                end
                            end
                        end
                    end
                end
          end
      end
  end.
Proof.
  unfold loginHandler, user_lookup, credentials_mismatch, login_Session,
    login_Cookie, sent, int_of_int64, defaultSessionIDKey.
  rewrite Unix_Add_10_Minute.
  destruct (json_Decode c) as [req|]; [|reflexivity].
  unfold_calls. cbn beta iota zeta.
  destruct (err_BeginTxx env); [reflexivity|].
  destruct (err_Get_user env); [reflexivity|].
  cbn beta iota zeta.
  destruct (select_user_by_name (lr_UserName req) (db w)) as [user|]; [|reflexivity].
  match goal with |- context [if ?b then _ else _] => destruct b end;
    [reflexivity|].
  destruct (err_Exec env); [reflexivity|].
  cbn beta iota zeta.
  match goal with |- context [exec ?n ?s ?d] => destruct (exec n s d) end;
    [|reflexivity].
  destruct (err_Commit env); [reflexivity|].
  destruct (session_Get c); [|reflexivity].
  destruct (err_session_Save env); reflexivity.
Qed.

Lemma credentials_mismatch_spec req user :
  credentials_mismatch req user = true <->
  lr_UserName req <> User.Name user \/
  Sprintf_x (sha512_Sum512 (list_byte_of_string (lr_Password req)))
    <> User.Password user.
Proof.
  unfold credentials_mismatch.
  rewrite orb_true_iff, !negb_true_iff, !String.eqb_neq. reflexivity.
Qed.

Lemma credentials_match_spec req user :
  credentials_mismatch req user = false <->
  lr_UserName req = User.Name user /\
  Sprintf_x (sha512_Sum512 (list_byte_of_string (lr_Password req)))
    = User.Password user.
Proof.
  unfold credentials_mismatch.
  rewrite orb_false_iff, !negb_false_iff, !String.eqb_eq. reflexivity.
Qed.

(** A name no row carries makes the lookup report [sql.ErrNoRows]. *)
Lemma select_user_by_name_unknown name d :
  name_taken d name = false -> select_user_by_name name d = Err ErrNoRows.
Proof.
  unfold name_taken, select_user_by_name.
  induction (users d) as [|r rs IH]; cbn [existsb List.find]; [reflexivity|].
  destruct (sql_str_eq (User.Name r) name); [discriminate|].
  exact IH.
Qed.

(** On a store that answers, a login under an unknown name is answered
    with status 500 and the driver's "no rows" text. *)
Lemma login_unknown_user env c req w :
  json_Decode c = Some req ->
  err_BeginTxx env = None ->
  err_Get_user env = None ->
  name_taken (db w) (lr_UserName req) = false ->
  run (loginHandler env c) w = (HTTPError StatusInternalServerError ErrNoRows, w).
Proof.
  intros Hreq Hb Hg Hfree. rewrite loginHandler_table, Hreq, Hb.
  unfold user_lookup. rewrite Hg, (select_user_by_name_unknown _ _ Hfree).
  reflexivity.
Qed.

(** With nothing failing, known credentials and an unused session id, the
    login is answered with 200. *)
Lemma login_succeeds env c req user vals w :
  healthy env ->
  json_Decode c = Some req ->
  select_user_by_name (lr_UserName req) (db w) = Ok user ->
  credentials_mismatch req user = false ->
  session_id_taken (db w) (uuid_NewString env) = false ->
  session_Get c = Ok vals ->
  fst (run (loginHandler env c) w) = NoContent StatusOK.
Proof.
  intros (Hb & He & Hc & _ & Hg & Hs) Hreq Hu Hok Hfresh Hget.
  rewrite loginHandler_table, Hreq, Hb. unfold user_lookup.
  rewrite Hg, Hu, Hok. cbn zeta. rewrite He. unfold exec.
  cbn [login_Session Session.ID]. rewrite Hfresh, Hc, Hget, Hs. reflexivity.
Qed.
End Login.

Section Authenticate.
Context {ext : Externals} {Body : Type}.
Implicit Types (env : Env) (c : echo_Context Body) (w : World).

(** [userHandler] as a decision table. *)
Lemma userHandler_table env c w :
  run (userHandler env c) w =
  match session_Get c with
  | Err e => (HTTPError StatusInternalServerError e, w)
  | Ok sess_Values =>
      match sess_Values !! defaultSessionIDKey with
      | None => (HTTPError StatusForbidden "", w)
      | Some (VInt _) => (Panic, w)
      | Some (VString id) =>
          match session_lookup env id (db w) with
          | Err _ => (HTTPError StatusForbidden "", w)
          | Ok userSession =>
              if Time_Unix (time_Now env) >? Session.Expires userSession
              then
                let st := expiry_DELETE userSession in
                (HTTPError StatusUnauthorized "session has expired",
                 match exec_result env st (db w) with
                 | Ok d => with_db (sent st w) d
                 | Err _ => warned (sent st w)
                 end)
              else (profile_reply env (Param c "user_id") (db w), w)
          end
      end
  end.
Proof.
  unfold userHandler, session_lookup, profile_reply, exec_result,
    expiry_DELETE, warned, sent, int64_of_int.
  destruct (session_Get c) as [vals|]; [|reflexivity].
  destruct (vals !! defaultSessionIDKey) as [[id|n]|]; [|reflexivity..].
  unfold_calls. cbn beta iota zeta.
  destruct (err_Get_session env); [reflexivity|].
  destruct (select_session_by_id id (db w)) as [s|]; [|reflexivity].
  destruct (Time_Unix (time_Now env) >? Session.Expires s).
  - destruct (err_Exec env); [reflexivity|].
    cbn beta iota zeta. cbn [db].
    match goal with |- context [exec ?n ?s ?d] => destruct (exec n s d) end;
      reflexivity.
  - destruct (err_Get_user env); [reflexivity|].
    destruct (select_profile_by_id (Param c "user_id") (db w)); reflexivity.
Qed.

(** The schema has no table of that name. *)
Lemma exec_expiry_DELETE now s d :
  exec now (expiry_DELETE s) d = Err "Error 1146: Table sessoins doesn't exist".
Proof. reflexivity. Qed.

Lemma exec_result_expiry_DELETE env s d :
  exists e, exec_result env (expiry_DELETE s) d = Err e.
Proof.
  unfold exec_result. destruct (err_Exec env) as [e|]; eexists; reflexivity.
Qed.

(** The call the handler makes for an expired session, on its own. *)
Lemma dbConn_NamedExecContext_run env st w :
  dbConn_NamedExecContext env st w =
  match exec_result env st (db w) with
  | Ok d => (Next (Ok tt), with_db (sent st w) d)
  | Err e => (Next (Err e), sent st w)
  end.
Proof.
  unfold exec_result, sent. unfold_calls. cbn beta iota zeta.
  destruct (err_Exec env); [reflexivity|].
  cbn beta iota zeta. cbn [db].
  destruct (exec (store_now env) st (db w)); reflexivity.
Qed.

(** No branch of [userHandler] writes to the database. *)
Lemma userHandler_db env c w : db (snd (run (userHandler env c) w)) = db w.
Proof.
  rewrite userHandler_table.
  destruct (session_Get c) as [vals|]; [|reflexivity].
  destruct (vals !! defaultSessionIDKey) as [[id|n]|]; [|reflexivity..].
  destruct (session_lookup env id (db w)) as [s|]; [|reflexivity].
  destruct (Time_Unix (time_Now env) >? Session.Expires s); [|reflexivity].
  cbn zeta. destruct (exec_result_expiry_DELETE env s (db w)) as [e ->].
  reflexivity.
Qed.

(** Once the session check has passed, the answer is [profile_reply]. *)
Lemma userHandler_valid_session env c w vals token s :
  session_Get c = Ok vals ->
  vals !! defaultSessionIDKey = Some (VString token) ->
  session_lookup env token (db w) = Ok s ->
  Time_Unix (time_Now env) <= Session.Expires s ->
  run (userHandler env c) w = (profile_reply env (Param c "user_id") (db w), w).
Proof.
  intros Hget Hval Hs Hlive.
  rewrite userHandler_table, Hget, Hval, Hs.
  destruct (Z.gtb_spec (Time_Unix (time_Now env)) (Session.Expires s)); [lia|].
  reflexivity.
Qed.
End Authenticate.

(** * Registration and login *)

Section Credentials.
Context {ext : Externals}.

(** C2 (amended).  A successful registration answers 201 with the [User]
    value the handler built from the request before the insert: its name,
    display name, description and password digest are those of the row
    the store appended, but its id is 0 and both its timestamps are the
    zero time, while the stored row carries the id and the timestamps the
    store assigned.  The handler never reads the stored row back. *)
Theorem register_returns_request_user env c w code body w' :
  run (userRegisterHandler env c) w = (JSON code body, w') ->
  exists req row,
    json_Decode c = Some req /\
    code = StatusCreated /\
    users (db w') = (users (db w) ++ [row])%list /\
    User.ID row = users_auto_increment (db w) /\
    User.CreatedAt row = store_now env /\
    User.UpdatedAt row = store_now env /\
    User.Name row = pu_Name req /\
    User.DisplayName row = pu_DisplayName req /\
    User.Description row = pu_Description req /\
    User.Password row
      = Sprintf_x (sha512_Sum512 (list_byte_of_string (pu_Password req))) /\
    body = [ ("ID", JNumber 0);
             ("Name", JString (User.Name row));
             ("DisplayName", JString (User.DisplayName row));
             ("Description", JString (User.Description row));
             ("Password", JString (User.Password row));
             ("CreatedAt", JTime zero_Time);
             ("UpdatedAt", JTime zero_Time) ].
Proof.
  intros H. apply register_success in H.
  destruct H as (req & Hreq & -> & -> & _ & ->).
  exists req, (stored_User (db w) (store_now env) (registered_User req)).
  cbn. repeat split; try reflexivity. exact Hreq.
Qed.

(** C10.  The body of every 201 response of the registration handler is
    the marshalled [User] struct with all seven fields, and its
    [Password] field holds the hexadecimal SHA-512 digest of the
    plaintext password that was submitted. *)
Theorem register_discloses_password_digest env c w code body w' :
  run (userRegisterHandler env c) w = (JSON code body, w') ->
  exists req,
    json_Decode c = Some req /\
    code = StatusCreated /\
    map fst body = ["ID"; "Name"; "DisplayName"; "Description"; "Password";
                    "CreatedAt"; "UpdatedAt"] /\
    In ("Password",
        JString (Sprintf_x (sha512_Sum512 (list_byte_of_string (pu_Password req)))))
       body.
Proof.
  intros H. apply register_success in H.
  destruct H as (req & Hreq & -> & -> & _).
  exists req. repeat split; [exact Hreq|].
  cbn. do 4 right. left. reflexivity.
Qed.

(** C7.  When the user lookup of a login succeeds, the handler compares
    the hexadecimal digest of the submitted password with the stored
    hash and the submitted user name with the stored name.  If either
    differs the answer is 401 "invalid username or password" and nothing
    is written; if both agree the answer is never a 401. *)
Theorem login_credential_check env c req user w :
  json_Decode c = Some req ->
  err_BeginTxx env = None ->
  user_lookup env (lr_UserName req) (db w) = Ok user ->
  let digest := Sprintf_x (sha512_Sum512 (list_byte_of_string (lr_Password req))) in
  (lr_UserName req <> User.Name user \/ digest <> User.Password user ->
   run (loginHandler env c) w
   = (HTTPError StatusUnauthorized "invalid username or password", w)) /\
  (lr_UserName req = User.Name user /\ digest = User.Password user ->
   forall msg,
     fst (run (loginHandler env c) w) <> HTTPError StatusUnauthorized msg).
Proof.
  intros Hreq Hb Hu digest.
  rewrite loginHandler_table, Hreq, Hb, Hu. split.
  - intros Hbad. apply credentials_mismatch_spec in Hbad. now rewrite Hbad.
  - intros Hok msg. apply credentials_match_spec in Hok. rewrite Hok.
    cbn zeta.
    destruct (err_Exec env); [discriminate|].
    destruct (exec _ _ _); [|discriminate].
    destruct (err_Commit env); [discriminate|].
    destruct (session_Get c); [|discriminate].
    destruct (err_session_Save env); discriminate.
Qed.

(** C6.  A login answered with 200 has appended to [sessions] the row
    (fresh UUID, id of the user found, UNIX second of now plus 600), the
    UNIX second of now plus ten minutes being that of now plus 600, and
    has saved one cookie named SESSIONID whose values hold that UUID
    under the key SESSIONID, with path "/" and max-age 600. *)
Theorem login_session_row_and_cookie env c w code w' :
  run (loginHandler env c) w = (NoContent code, w') ->
  exists req user sess_Values,
    json_Decode c = Some req /\
    user_lookup env (lr_UserName req) (db w) = Ok user /\
    session_Get c = Ok sess_Values /\
    code = StatusOK /\
    sessions (db w')
    = (sessions (db w)
       ++ [ {| Session.ID := uuid_NewString env;
               Session.UserID := User.ID user;
               Session.Expires := Time_Unix (Time_Add (time_Now env) (10 * Minute)) |} ])%list /\
    Time_Unix (Time_Add (time_Now env) (10 * Minute)) = Time_Unix (time_Now env) + 600 /\
    set_cookie w'
    = (set_cookie w
       ++ [ {| cookie_name := "SESSIONID";
               cookie_Values := <["SESSIONID" := VString (uuid_NewString env)]> sess_Values;
               cookie_MaxAge := 600;
               cookie_Path := "/" |} ])%list /\
    (<["SESSIONID" := VString (uuid_NewString env)]> sess_Values) !! "SESSIONID"
    = Some (VString (uuid_NewString env)).
Proof.
  rewrite loginHandler_table.
  destruct (json_Decode c) as [req|]; [|discriminate].
  destruct (err_BeginTxx env); [discriminate|].
  destruct (user_lookup env (lr_UserName req) (db w)) as [user|] eqn:Hu;
    [|discriminate].
  destruct (credentials_mismatch req user); [discriminate|].
  cbn zeta. destruct (err_Exec env); [discriminate|].
  unfold exec. cbn [login_Session Session.ID].
  destruct (session_id_taken (db w) (uuid_NewString env)); [discriminate|].
  destruct (err_Commit env); [discriminate|].
  destruct (session_Get c) as [vals|]; [|discriminate].
  destruct (err_session_Save env); [discriminate|].
  intros H. injection H as <- <-.
  exists req, user, vals. rewrite Unix_Add_10_Minute.
  repeat split; try reflexivity; try assumption.
  apply lookup_insert_eq.
Qed.
End Credentials.

(** * The session check *)

Section SessionCheck.
Context {ext : Externals} {Body : Type}.
Implicit Types (env : Env) (c : echo_Context Body) (w : World).

(** C5 (amended).  When the cookie store hands over the request's session:
    if the session holds no token, or holds a token whose lookup in
    [sessions] fails for any reason (no such row or a failing query),
    [userHandler] gives the same answer, 403 with an empty message, and
    the world is left as it was.  When the cookie store itself fails on
    the request ([session.Get] returns an error), the answer is 500 with
    that error, and the world is left as it was. *)
Theorem missing_or_unknown_token_forbidden env c w :
  (forall vals,
      session_Get c = Ok vals ->
      (vals !! defaultSessionIDKey = None \/
       exists token e,
         vals !! defaultSessionIDKey = Some (VString token) /\
         session_lookup env token (db w) = Err e) ->
      run (userHandler env c) w = (HTTPError StatusForbidden "", w)) /\
  (forall e,
      session_Get c = Err e ->
      run (userHandler env c) w = (HTTPError StatusInternalServerError e, w)).
Proof.
  split.
  - intros vals Hget Hcase. rewrite userHandler_table, Hget.
    destruct Hcase as [-> | (token & e & -> & ->)]; reflexivity.
  - intros e Hget. rewrite userHandler_table, Hget. reflexivity.
Qed.

(** C3.  When the token is found and the current UNIX second is past the
    session's expiry, [userHandler] hands its DELETE statement (bound to
    the fetched session struct) to the store; if that call reports an
    error the only consequence is one warning in the log; and the answer
    is 401 "session has expired" whatever the call reported. *)
Theorem expired_session_unauthorized env c w vals token s :
  session_Get c = Ok vals ->
  vals !! defaultSessionIDKey = Some (VString token) ->
  session_lookup env token (db w) = Ok s ->
  Time_Unix (time_Now env) > Session.Expires s ->
  exists r w1,
    dbConn_NamedExecContext env (DELETE_WHERE_id "sessoins" s) w = (Next r, w1) /\
    executed w1 = (executed w ++ [DELETE_WHERE_id "sessoins" s])%list /\
    run (userHandler env c) w
    = (HTTPError StatusUnauthorized "session has expired",
       match r with
       | Ok _ => w1
       | Err _ =>
           {| db := db w1;
              logger := (logger w1 ++ ["failed to delete the session info from DB"])%list;
              executed := executed w1;
              set_cookie := set_cookie w1 |}
       end).
Proof.
  intros Hget Hval Hs Hexp.
  rewrite userHandler_table, Hget, Hval, Hs, dbConn_NamedExecContext_run.
  destruct (Z.gtb_spec (Time_Unix (time_Now env)) (Session.Expires s)); [|lia].
  cbn zeta. fold (expiry_DELETE s).
  destruct (exec_result env (expiry_DELETE s) (db w)) as [d|e];
    eexists _, _; repeat split; reflexivity.
Qed.

(** C9.  [userHandler] leaves the database as it found it in every
    branch.  For an expired session in particular the store rejects the
    DELETE, which names the table "sessoins"; the handler logs the
    warning and answers 401, and the session row can still be fetched
    afterwards. *)
Theorem userHandler_frame :
  (forall env c w, db (snd (run (userHandler env c) w)) = db w) /\
  (forall env c w vals token s,
      session_Get c = Ok vals ->
      vals !! defaultSessionIDKey = Some (VString token) ->
      session_lookup env token (db w) = Ok s ->
      Time_Unix (time_Now env) > Session.Expires s ->
      (exists e, exec_result env (DELETE_WHERE_id "sessoins" s) (db w) = Err e) /\
      run (userHandler env c) w
      = (HTTPError StatusUnauthorized "session has expired",
         {| db := db w;
            logger := (logger w ++ ["failed to delete the session info from DB"])%list;
            executed := (executed w ++ [DELETE_WHERE_id "sessoins" s])%list;
            set_cookie := set_cookie w |}) /\
      session_lookup env token (db (snd (run (userHandler env c) w))) = Ok s).
Proof.
  split; [apply userHandler_db|].
  intros env c w vals token s Hget Hval Hs Hexp.
  split; [apply exec_result_expiry_DELETE|].
  split; [|rewrite userHandler_db; exact Hs].
  rewrite userHandler_table, Hget, Hval, Hs.
  destruct (Z.gtb_spec (Time_Unix (time_Now env)) (Session.Expires s)); [|lia].
  cbn zeta. destruct (exec_result_expiry_DELETE env s (db w)) as [e ->].
  reflexivity.
Qed.

(** C4.  Two requests that carry valid, unexpired sessions of different
    users and the same [user_id] path parameter get the same answer, and
    that answer is computed from the path parameter and the users table
    alone. *)
Theorem profile_independent_of_session_owner
        env1 env2 c1 c2 w vals1 vals2 token1 token2 s1 s2 :
  session_Get c1 = Ok vals1 ->
  vals1 !! defaultSessionIDKey = Some (VString token1) ->
  session_lookup env1 token1 (db w) = Ok s1 ->
  Time_Unix (time_Now env1) <= Session.Expires s1 ->
  session_Get c2 = Ok vals2 ->
  vals2 !! defaultSessionIDKey = Some (VString token2) ->
  session_lookup env2 token2 (db w) = Ok s2 ->
  Time_Unix (time_Now env2) <= Session.Expires s2 ->
  Session.UserID s1 <> Session.UserID s2 ->
  Param c1 "user_id" = Param c2 "user_id" ->
  err_Get_user env1 = err_Get_user env2 ->
  run (userHandler env1 c1) w = run (userHandler env2 c2) w /\
  fst (run (userHandler env1 c1) w) = profile_reply env1 (Param c1 "user_id") (db w).
Proof.
  intros G1 V1 L1 T1 G2 V2 L2 T2 _ Hpath Herr.
  rewrite (userHandler_valid_session env1 c1 w vals1 token1 s1 G1 V1 L1 T1).
  rewrite (userHandler_valid_session env2 c2 w vals2 token2 s2 G2 V2 L2 T2).
  split; [|reflexivity].
  unfold profile_reply. now rewrite Hpath, Herr.
Qed.
End SessionCheck.

(** ** Name uniqueness *)
Section Uniqueness.
Context {ext : Externals}.
(** The engine's comparison holds between a string and itself. *)
Hypothesis sql_str_eq_refl : forall s, sql_str_eq s s = true.

Lemma name_taken_In d name :
  In name (map User.Name (users d)) -> name_taken d name = true.
Proof.
  unfold name_taken. intros Hin. apply existsb_exists.
  apply in_map_iff in Hin. destruct Hin as (r & <- & Hr).
  exists r. split; [exact Hr | apply sql_str_eq_refl].
Qed.

Lemma name_free_not_In d name :
  name_taken d name = false -> ~ In name (map User.Name (users d)).
Proof.
  intros Hfree Hin. apply name_taken_In in Hin. congruence.
Qed.

Lemma NoDup_snoc {A} (l : list A) (x : A) :
  NoDup l -> ~ In x l -> NoDup (l ++ [x]).
Proof.
  intros Hl Hx. apply NoDup_app. split; [exact Hl|]. split.
  - intros y Hy Hyx. apply list_elem_of_In in Hy.
    apply list_elem_of_In in Hyx. destruct Hyx as [<-|[]]. exact (Hx Hy).
  - apply NoDup_cons. split; [|apply NoDup_nil; exact I].
    intros H. apply list_elem_of_In in H. destruct H.
Qed.

(** An insert into [users] that the store accepts keeps the names
    distinct. *)
Lemma exec_INSERT_users_unique now u d d' :
  exec now (INSERT_INTO_users u) d = Ok d' ->
  names_unique d -> names_unique d'.
Proof.
  unfold exec, names_unique.
  destruct (name_taken d (User.Name u)) eqn:Hfree; [discriminate|].
  intros H. injection H as <-. cbn [users]. intros Hd.
  rewrite map_app. cbn [map stored_User User.Name].
  apply NoDup_snoc; [exact Hd | exact (name_free_not_In _ _ Hfree)].
Qed.

Lemma userRegisterHandler_unique env c w :
  names_unique (db w) ->
  names_unique (db (snd (run (userRegisterHandler env c) w))).
Proof.
  intros Hw. rewrite userRegisterHandler_table.
  destruct (json_Decode c) as [req|]; [|exact Hw].
  cbn zeta. destruct (err_BeginTxx env); [exact Hw|].
  destruct (err_Exec env); [exact Hw|].
  destruct (exec _ _ _) as [d|] eqn:He; [|exact Hw].
  destruct (err_Commit env); [exact Hw|].
  exact (exec_INSERT_users_unique _ _ _ _ He Hw).
Qed.

Lemma loginHandler_users env c w :
  users (db (snd (run (loginHandler env c) w))) = users (db w).
Proof.
  rewrite loginHandler_table.
  destruct (json_Decode c) as [req|]; [|reflexivity].
  destruct (err_BeginTxx env); [reflexivity|].
  destruct (user_lookup _ _ _) as [user|]; [|reflexivity].
  destruct (credentials_mismatch req user); [reflexivity|].
  cbn zeta. destruct (err_Exec env); [reflexivity|].
  unfold exec.
  destruct (session_id_taken _ _); [reflexivity|].
  destruct (err_Commit env); [reflexivity|].
  destruct (session_Get c); [|reflexivity].
  destruct (err_session_Save env); reflexivity.
Qed.

Lemma serve_unique o w :
  names_unique (db w) -> names_unique (db (snd (serve o w))).
Proof.
  destruct o as [env c|env c|env c]; cbn [serve]; intros Hw.
  - now apply userRegisterHandler_unique.
  - unfold names_unique. now rewrite loginHandler_users.
  - now rewrite userHandler_db.
Qed.

Lemma serve_all_unique os w :
  names_unique (db w) -> names_unique (db (serve_all os w)).
Proof.
  revert w. induction os as [|o os IH]; intros w Hw; cbn [serve_all].
  - exact Hw.
  - apply IH, serve_unique, Hw.
Qed.

(** A registration under a name some row already carries is refused with
    status 500 and writes nothing. *)
Lemma register_duplicate env c req w :
  json_Decode c = Some req ->
  In (pu_Name req) (map User.Name (users (db w))) ->
  exists msg,
    fst (run (userRegisterHandler env c) w)
    = HTTPError StatusInternalServerError msg /\
    db (snd (run (userRegisterHandler env c) w)) = db w.
Proof.
  intros Hreq Hin. rewrite userRegisterHandler_table, Hreq. cbn zeta.
  destruct (err_BeginTxx env) as [e|]; [exists e; split; reflexivity|].
  destruct (err_Exec env) as [e|]; [exists e; split; reflexivity|].
  unfold exec. cbn [registered_User User.Name].
  rewrite (name_taken_In _ _ Hin). eexists. split; reflexivity.
Qed.
End Uniqueness.

(** C8.  Provided the engine's string comparison holds between a string and
    itself: a registration under a name that some stored user already has
    is answered with status 500 and leaves the database unchanged; every
    request served keeps the user names pairwise distinct; hence after any
    sequence of requests on the empty database no two users share a
    name. *)
Theorem name_uniqueness {ext : Externals}
        (sql_str_eq_refl : forall s, sql_str_eq s s = true) :
  (forall env c req w,
      json_Decode c = Some req ->
      In (pu_Name req) (map User.Name (users (db w))) ->
      exists msg,
        fst (run (userRegisterHandler env c) w)
        = HTTPError StatusInternalServerError msg /\
        db (snd (run (userRegisterHandler env c) w)) = db w) /\
  (forall o w, names_unique (db w) -> names_unique (db (snd (serve o w)))) /\
  (forall os, NoDup (map User.Name (users (db (serve_all os initial_World))))).
Proof.
  split; [|split].
  - intros env c req w. now apply register_duplicate.
  - intros o w. now apply serve_unique.
  - intros os. apply (serve_all_unique sql_str_eq_refl os initial_World).
    apply NoDup_nil. exact I.
Qed.

(** * The handlers on concrete requests *)

(** The pre-test scenario of the benchmark: register, log in, fetch user 1
    with the cookie; and fetch it without. *)
Example pretest_scenario :
  fst (run (userRegisterHandler (ext := sample_externals) (env_at t0 uuid1) pretest_PostUser)
           initial_World)
  = JSON 201 pretest_body /\
  fst (run (loginHandler (ext := sample_externals) (env_at (t0 + Second) uuid1) pretest_Login)
           after_register)
  = NoContent 200 /\
  fst (run (userHandler (ext := sample_externals) env_live (get_user_with uuid1 "1"))
           after_login)
  = JSON 200 [ ("ID", JNumber 0); ("Name", JString "test");
               ("DisplayName", JString "test");
               ("Description", JString "blah blah blah");
               ("Password", JString ""); ("CreatedAt", JTime t0);
               ("UpdatedAt", JTime t0) ] /\
  fst (run (userHandler (ext := sample_externals) env_live (get_user_without_cookie "1"))
           after_login)
  = HTTPError 403 "".
Proof. repeat split; vm_compute; reflexivity. Qed.

(** C1 (the code at the failing input).  With the user "test" registered,
    a login under the unknown name "nobody" is answered with status 500
    and the text "sql: no rows in result set", whereas a login as "test"
    with a wrong password is answered with 401 "invalid username or
    password": an unknown name is not answered with Unauthorized, and the
    two answers differ. *)
Theorem login_unknown_user_not_unauthorized :
  run (loginHandler (ext := sample_externals) env_live (login_as "nobody" "s3cr3t"))
      after_register
  = (HTTPError 500 "sql: no rows in result set", after_register) /\
  run (loginHandler (ext := sample_externals) env_live (login_as "test" "wrong"))
      after_register
  = (HTTPError 401 "invalid username or password", after_register) /\
  ~ rejects_bad_credentials (ext := sample_externals) env_live
      (login_as "nobody" "s3cr3t") after_register.
Proof.
  split; [vm_compute; reflexivity|]. split; [vm_compute; reflexivity|].
  intros H.
  destruct (H {| lr_UserName := "nobody"; lr_Password := "s3cr3t" |} eq_refl)
    as [msg Hmsg].
  - left. vm_compute. reflexivity.
  - vm_compute in Hmsg. discriminate Hmsg.
Qed.

(** C2 (counterexample).  The pre-test registration is answered with a
    body that is the marshalling of no stored row: the only row has id 1
    and the store's timestamps, the body has id 0 and the zero time. *)
Lemma register_does_not_return_stored_User :
  ~ returns_stored_User (ext := sample_externals) (env_at t0 uuid1)
      pretest_PostUser initial_World.
Proof.
  intros H.
  destruct (H 201 pretest_body after_register) as (row & Hin & Hbody).
  - vm_compute. reflexivity.
  - assert (Hrows : users (db after_register) = [pretest_row])
      by (vm_compute; reflexivity).
    rewrite Hrows in Hin. destruct Hin as [<-|[]].
    vm_compute in Hbody. discriminate Hbody.
Qed.

Lemma register_returns_request_user_witness :
  run (userRegisterHandler (ext := sample_externals) (env_at t0 uuid1) pretest_PostUser)
      initial_World
  = (JSON 201 pretest_body, after_register) /\
  exists req row,
    json_Decode pretest_PostUser = Some req /\
    201 = StatusCreated /\
    users (db after_register) = (users (db initial_World) ++ [row])%list /\
    User.ID row = users_auto_increment (db initial_World) /\
    User.CreatedAt row = store_now (env_at t0 uuid1) /\
    User.UpdatedAt row = store_now (env_at t0 uuid1) /\
    User.Name row = pu_Name req /\
    User.DisplayName row = pu_DisplayName req /\
    User.Description row = pu_Description req /\
    User.Password row
      = Sprintf_x (sha512_Sum512 (Externals := sample_externals)
                                 (list_byte_of_string (pu_Password req))) /\
    pretest_body = [ ("ID", JNumber 0);
                     ("Name", JString (User.Name row));
                     ("DisplayName", JString (User.DisplayName row));
                     ("Description", JString (User.Description row));
                     ("Password", JString (User.Password row));
                     ("CreatedAt", JTime zero_Time);
                     ("UpdatedAt", JTime zero_Time) ].
Proof.
  assert (Hrun : run (userRegisterHandler (ext := sample_externals)
                        (env_at t0 uuid1) pretest_PostUser) initial_World
                 = (JSON 201 pretest_body, after_register))
    by (vm_compute; reflexivity).
  split; [exact Hrun|].
  exact (register_returns_request_user (ext := sample_externals)
           (env_at t0 uuid1) pretest_PostUser initial_World 201 pretest_body
           after_register Hrun).
Defined.

Lemma register_discloses_password_digest_witness :
  run (userRegisterHandler (ext := sample_externals) (env_at (t0 + 2 * Second) uuid2)
         (post_user "other" "hunter2")) after_login
  = (JSON 201
       (json_Marshal_User
          (registered_User (ext := sample_externals)
             {| pu_Name := "other"; pu_DisplayName := "other";
                pu_Description := ""; pu_Password := "hunter2" |})),
     snd (run (userRegisterHandler (ext := sample_externals)
                 (env_at (t0 + 2 * Second) uuid2) (post_user "other" "hunter2"))
              after_login)) /\
  exists req,
    json_Decode (post_user "other" "hunter2") = Some req /\
    201 = StatusCreated /\
    map fst (json_Marshal_User
               (registered_User (ext := sample_externals)
                  {| pu_Name := "other"; pu_DisplayName := "other";
                     pu_Description := ""; pu_Password := "hunter2" |}))
    = ["ID"; "Name"; "DisplayName"; "Description"; "Password";
       "CreatedAt"; "UpdatedAt"] /\
    In ("Password",
        JString (Sprintf_x (sha512_Sum512 (Externals := sample_externals)
                                          (list_byte_of_string (pu_Password req)))))
       (json_Marshal_User
          (registered_User (ext := sample_externals)
             {| pu_Name := "other"; pu_DisplayName := "other";
                pu_Description := ""; pu_Password := "hunter2" |})).
Proof.
  match goal with |- ?H /\ _ => assert (Hrun : H) by (vm_compute; reflexivity) end.
  split; [exact Hrun|].
  exact (register_discloses_password_digest (ext := sample_externals)
           _ _ _ _ _ _ Hrun).
Defined.

Lemma login_credential_check_witness :
  run (loginHandler (ext := sample_externals) env_live (login_as "test" "wrong"))
      after_register
  = (HTTPError StatusUnauthorized "invalid username or password", after_register) /\
  (forall msg,
      fst (run (loginHandler (ext := sample_externals) env_live (login_as "test" "s3cr3t"))
               after_register)
      <> HTTPError StatusUnauthorized msg).
Proof.
  assert (Hu : user_lookup (ext := sample_externals) env_live "test" (db after_register)
               = Ok pretest_row) by (vm_compute; reflexivity).
  split.
  - apply (login_credential_check (ext := sample_externals) env_live
             (login_as "test" "wrong")
             {| lr_UserName := "test"; lr_Password := "wrong" |}
             pretest_row after_register eq_refl eq_refl Hu).
    right. vm_compute. discriminate.
  - apply (login_credential_check (ext := sample_externals) env_live
             (login_as "test" "s3cr3t")
             {| lr_UserName := "test"; lr_Password := "s3cr3t" |}
             pretest_row after_register eq_refl eq_refl Hu).
    split; vm_compute; reflexivity.
Defined.

Lemma login_session_row_and_cookie_witness :
  run (loginHandler (ext := sample_externals) (env_at (t0 + Second) uuid1) pretest_Login)
      after_register
  = (NoContent 200, after_login) /\
  sessions (db after_login)
  = [ {| Session.ID := uuid1; Session.UserID := 1; Session.Expires := 1700000601 |} ] /\
  exists vals,
    set_cookie after_login
    = [ {| cookie_name := "SESSIONID"; cookie_Values := vals;
           cookie_MaxAge := 600; cookie_Path := "/" |} ] /\
    vals !! "SESSIONID" = Some (VString uuid1).
Proof.
  assert (Hrun : run (loginHandler (ext := sample_externals)
                        (env_at (t0 + Second) uuid1) pretest_Login) after_register
                 = (NoContent 200, after_login)) by (vm_compute; reflexivity).
  split; [exact Hrun|].
  destruct (login_session_row_and_cookie (ext := sample_externals) _ _ _ _ _ Hrun)
    as (req & user & vals & Hreq & Hu & Hget & _ & Hrow & _ & Hck & Hval).
  assert (Hu' : user_lookup (ext := sample_externals) (env_at (t0 + Second) uuid1)
                  "test" (db after_register) = Ok pretest_row)
    by (vm_compute; reflexivity).
  injection Hreq as <-. cbn [lr_UserName] in Hu. rewrite Hu' in Hu.
  injection Hu as <-.
  split.
  - rewrite Hrow. vm_compute. reflexivity.
  - eexists. split; [exact Hck | exact Hval].
Defined.

Lemma missing_or_unknown_token_forbidden_witness :
  run (userHandler (ext := sample_externals) env_live (get_user_without_cookie "1"))
      after_login
  = (HTTPError StatusForbidden "", after_login) /\
  run (userHandler (ext := sample_externals) env_live (get_user_with "no-such-token" "1"))
      after_login
  = (HTTPError StatusForbidden "", after_login) /\
  run (userHandler (ext := sample_externals) env_live (get_user_with_bad_cookie "1"))
      after_login
  = (HTTPError StatusInternalServerError "securecookie: the value is not valid",
     after_login).
Proof.
  split; [|split].
  - apply (proj1 (missing_or_unknown_token_forbidden (ext := sample_externals) env_live
                    (get_user_without_cookie "1") after_login) ∅ eq_refl).
    left. vm_compute. reflexivity.
  - apply (proj1 (missing_or_unknown_token_forbidden (ext := sample_externals) env_live
                    (get_user_with "no-such-token" "1") after_login)
                 (cookie_with "no-such-token") eq_refl).
    right. exists "no-such-token", ErrNoRows.
    split; vm_compute; reflexivity.
  - apply (proj2 (missing_or_unknown_token_forbidden (ext := sample_externals) env_live
                    (get_user_with_bad_cookie "1") after_login)
                 "securecookie: the value is not valid" eq_refl).
Defined.

(** C5 (counterexample).  A request whose SESSIONID cookie cannot be
    decoded presents no token that the store knows, yet it is answered
    with 500 and the cookie store's error, not with 403. *)
Lemma undecodable_cookie_not_forbidden :
  fst (run (userHandler (ext := sample_externals) env_live (get_user_with_bad_cookie "1"))
           after_login)
  = HTTPError 500 "securecookie: the value is not valid" /\
  ~ forbids_without_known_token (ext := sample_externals) env_live
      (get_user_with_bad_cookie "1") after_login.
Proof.
  split; [vm_compute; reflexivity|].
  intros H.
  assert (Hnone : ~ presents_known_token (ext := sample_externals) env_live
                      (get_user_with_bad_cookie "1") (db after_login)).
  { intros (vals & token & s & Hget & _). discriminate Hget. }
  specialize (H Hnone). vm_compute in H. discriminate H.
Qed.

Lemma expired_session_unauthorized_witness :
  Time_Unix (time_Now env_late) > Session.Expires fetched_session1 /\
  exists r w1,
    dbConn_NamedExecContext (ext := sample_externals) env_late
      (DELETE_WHERE_id "sessoins" fetched_session1) after_login = (Next r, w1) /\
    executed w1
    = (executed after_login ++ [DELETE_WHERE_id "sessoins" fetched_session1])%list /\
    run (userHandler (ext := sample_externals) env_late (get_user_with uuid1 "1"))
        after_login
    = (HTTPError StatusUnauthorized "session has expired",
       match r with
       | Ok _ => w1
       | Err _ =>
           {| db := db w1;
              logger := (logger w1 ++ ["failed to delete the session info from DB"])%list;
              executed := executed w1;
              set_cookie := set_cookie w1 |}
       end).
Proof.
  assert (Hexp : Time_Unix (time_Now env_late) > Session.Expires fetched_session1)
    by (vm_compute; reflexivity).
  split; [exact Hexp|].
  apply (expired_session_unauthorized (ext := sample_externals) env_late
           (get_user_with uuid1 "1") after_login (cookie_with uuid1) uuid1
           fetched_session1 eq_refl).
  - vm_compute. reflexivity.
  - vm_compute. reflexivity.
  - exact Hexp.
Defined.

Lemma userHandler_frame_witness :
  db (snd (run (userHandler (ext := sample_externals) env_late (get_user_with uuid1 "1"))
               after_login))
  = db after_login /\
  run (userHandler (ext := sample_externals) env_late (get_user_with uuid1 "1"))
      after_login
  = (HTTPError StatusUnauthorized "session has expired",
     {| db := db after_login;
        logger := ["failed to delete the session info from DB"];
        executed := (executed after_login
                     ++ [DELETE_WHERE_id "sessoins" fetched_session1])%list;
        set_cookie := set_cookie after_login |}) /\
  session_lookup (ext := sample_externals) env_late uuid1
    (db (snd (run (userHandler (ext := sample_externals) env_late
                     (get_user_with uuid1 "1")) after_login)))
  = Ok fetched_session1.
Proof.
  destruct (userHandler_frame (ext := sample_externals) (Body := unit))
    as [Hframe Hexpired].
  split; [apply Hframe|].
  destruct (Hexpired env_late (get_user_with uuid1 "1") after_login
              (cookie_with uuid1) uuid1 fetched_session1 eq_refl)
    as (_ & Hrun & Hstill).
  - vm_compute. reflexivity.
  - vm_compute. reflexivity.
  - vm_compute. reflexivity.
  - split; [exact Hrun | exact Hstill].
Defined.

Lemma profile_independent_of_session_owner_witness :
  Session.UserID fetched_session1 <> Session.UserID fetched_session2 /\
  run (userHandler (ext := sample_externals) env_live (get_user_with uuid1 "1"))
      two_users_logged_in
  = run (userHandler (ext := sample_externals) env_live (get_user_with uuid2 "1"))
        two_users_logged_in /\
  fst (run (userHandler (ext := sample_externals) env_live (get_user_with uuid1 "1"))
           two_users_logged_in)
  = profile_reply (ext := sample_externals) env_live "1" (db two_users_logged_in).
Proof.
  assert (Hne : Session.UserID fetched_session1 <> Session.UserID fetched_session2)
    by (vm_compute; discriminate).
  split; [exact Hne|].
  apply (profile_independent_of_session_owner (ext := sample_externals)
           env_live env_live (get_user_with uuid1 "1") (get_user_with uuid2 "1")
           two_users_logged_in (cookie_with uuid1) (cookie_with uuid2) uuid1 uuid2
           fetched_session1 fetched_session2).
  all: try (vm_compute; reflexivity).
  - vm_compute. discriminate.
  - vm_compute. discriminate.
  - exact Hne.
Defined.

Lemma name_uniqueness_witness :
  (exists msg,
      fst (run (userRegisterHandler (ext := sample_externals) env_live pretest_PostUser)
               after_login)
      = HTTPError StatusInternalServerError msg /\
      db (snd (run (userRegisterHandler (ext := sample_externals) env_live
                      pretest_PostUser) after_login))
      = db after_login) /\
  names_unique
    (db (snd (serve (ext := sample_externals)
                (PostUser env_live (post_user "other" "hunter2")) after_login))) /\
  NoDup (map User.Name
           (users (db (serve_all (ext := sample_externals)
                         [ PostUser (env_at t0 uuid1) pretest_PostUser;
                           PostUser env_live pretest_PostUser ]
                         initial_World)))).
Proof.
  destruct (name_uniqueness (ext := sample_externals) String.eqb_refl)
    as (Hdup & Hstep & Hall).
  split; [|split].
  - apply (Hdup env_live pretest_PostUser pretest_request after_login eq_refl).
    vm_compute. left. reflexivity.
  - apply Hstep. vm_compute.
    apply NoDup_cons. split; [|apply NoDup_nil; exact I].
    intros H. apply list_elem_of_In in H. destruct H.
  - apply Hall.
Defined.

(** * Further properties of the handlers *)

(** ** The hexadecimal digest string *)

Lemma unhex_hex_byte (b : byte) :
  unhex_byte (hex_digit (Byte.to_N b / 16)) (hex_digit (Byte.to_N b mod 16)) = Some b.
Proof. destruct b; vm_compute; reflexivity. Qed.

Lemma hex_digit_is_hex (b : byte) :
  is_hex_digit (hex_digit (Byte.to_N b / 16)) = true /\
  is_hex_digit (hex_digit (Byte.to_N b mod 16)) = true.
Proof. destruct b; vm_compute; split; reflexivity. Qed.

Lemma Sprintf_x_cons (b : byte) (bs : list byte) :
  Sprintf_x (b :: bs)
  = String (hex_digit (Byte.to_N b / 16))
      (String (hex_digit (Byte.to_N b mod 16)) (Sprintf_x bs)).
Proof. reflexivity. Qed.

Lemma unhex_Sprintf_x (bs : list byte) : unhex (Sprintf_x bs) = Some bs.
Proof.
  induction bs as [|b bs IH]; [reflexivity|].
  rewrite Sprintf_x_cons. cbn [unhex]. now rewrite unhex_hex_byte, IH.
Qed.

Lemma Sprintf_x_injective (bs1 bs2 : list byte) :
  Sprintf_x bs1 = Sprintf_x bs2 -> bs1 = bs2.
Proof.
  intros H. apply (f_equal unhex) in H.
  rewrite !unhex_Sprintf_x in H. now injection H.
Qed.

(** X9.  The digest string can be read back: decoding the output of
    [Sprintf_x] returns the bytes that were encoded, so two byte strings
    with the same hexadecimal form are equal. *)
Theorem Sprintf_x_round_trip :
  (forall bs, unhex (Sprintf_x bs) = Some bs) /\
  (forall bs1 bs2, Sprintf_x bs1 = Sprintf_x bs2 -> bs1 = bs2).
Proof. split; [exact unhex_Sprintf_x | exact Sprintf_x_injective]. Qed.

(** X19.  The digest string has exactly two characters per byte, each of
    them one of [0-9a-f]. *)
Theorem Sprintf_x_format (bs : list byte) :
  String.length (Sprintf_x bs) = (2 * List.length bs)%nat /\
  List.Forall (fun a => is_hex_digit a = true) (list_ascii_of_string (Sprintf_x bs)).
Proof.
  split; [apply Sprintf_x_length|].
  induction bs as [|b bs IH]; [constructor|].
  rewrite Sprintf_x_cons. cbn [list_ascii_of_string].
  destruct (hex_digit_is_hex b) as [Hhi Hlo].
  constructor; [exact Hhi|]. constructor; [exact Hlo | exact IH].
Qed.

(** ** Lookups on a table that has grown *)

Lemma find_app_hit {A} (f : A -> bool) (l k : list A) (y : A) :
  List.find f l = Some y -> List.find f (l ++ k) = Some y.
Proof.
  induction l as [|x l IH]; cbn [List.find app]; [discriminate|].
  destruct (f x); [trivial | exact IH].
Qed.

Lemma find_app_miss {A} (f : A -> bool) (l k : list A) :
  existsb f l = false -> List.find f (l ++ k) = List.find f k.
Proof.
  induction l as [|x l IH]; cbn [List.find app existsb]; [reflexivity|].
  destruct (f x); [discriminate | exact IH].
Qed.

Lemma find_none_existsb {A} (f : A -> bool) (l : list A) :
  List.find f l = None -> existsb f l = false.
Proof.
  induction l as [|x l IH]; cbn [List.find existsb]; [reflexivity|].
  destruct (f x); [discriminate | exact IH].
Qed.

Section RegisterMore.
Context {ext : Externals}.

(** X1.  A registration is all or nothing: either it answers 201 and the
    database has gained exactly the one user row, or it answers 400 or 500
    and the database is as before. *)
Theorem register_all_or_nothing env c w :
  (exists req,
      json_Decode c = Some req /\
      fst (run (userRegisterHandler env c) w)
      = JSON StatusCreated (json_Marshal_User (registered_User req)) /\
      db (snd (run (userRegisterHandler env c) w))
      = {| users := users (db w)
                    ++ [stored_User (db w) (store_now env) (registered_User req)];
           sessions := sessions (db w);
           users_auto_increment := users_auto_increment (db w) + 1 |}) \/
  (exists code msg,
      fst (run (userRegisterHandler env c) w) = HTTPError code msg /\
      (code = StatusBadRequest \/ code = StatusInternalServerError) /\
      db (snd (run (userRegisterHandler env c) w)) = db w).
Proof.
  rewrite userRegisterHandler_table.
  destruct (json_Decode c) as [req|];
    [|right; eexists _, _; repeat split; left; reflexivity].
  cbn zeta.
  destruct (err_BeginTxx env);
    [right; eexists _, _; repeat split; right; reflexivity|].
  destruct (err_Exec env);
    [right; eexists _, _; repeat split; right; reflexivity|].
  unfold exec. cbn [registered_User User.Name].
  destruct (name_taken (db w) (pu_Name req));
    [right; eexists _, _; repeat split; right; reflexivity|].
  destruct (err_Commit env);
    [right; eexists _, _; repeat split; right; reflexivity|].
  left. exists req. repeat split.
Qed.

(** X2.  Registering does not log the user in: whatever the outcome, the
    handler inserts no session, sets no cookie and writes nothing to the
    log. *)
Theorem register_starts_no_session env c w :
  sessions (db (snd (run (userRegisterHandler env c) w))) = sessions (db w) /\
  set_cookie (snd (run (userRegisterHandler env c) w)) = set_cookie w /\
  logger (snd (run (userRegisterHandler env c) w)) = logger w.
Proof.
  rewrite userRegisterHandler_table.
  destruct (json_Decode c) as [req|]; [|repeat split].
  cbn zeta. destruct (err_BeginTxx env); [repeat split|].
  destruct (err_Exec env); [repeat split|].
  unfold exec. cbn [registered_User User.Name].
  destruct (name_taken (db w) (pu_Name req)); [repeat split|].
  destruct (err_Commit env); repeat split.
Qed.

(** X3.  When no call fails and no stored user has the requested name (under
    the engine's comparison), the registration is answered with 201 and
    the marshalled user. *)
Theorem register_free_name_created env c req w :
  healthy env ->
  json_Decode c = Some req ->
  name_taken (db w) (pu_Name req) = false ->
  fst (run (userRegisterHandler env c) w)
  = JSON StatusCreated (json_Marshal_User (registered_User req)).
Proof.
  intros (Hb & He & Hc & _) Hreq Hfree.
  rewrite userRegisterHandler_table, Hreq, Hb. cbn zeta. rewrite He.
  unfold exec. cbn [registered_User User.Name]. rewrite Hfree, Hc. reflexivity.
Qed.
End RegisterMore.

Section LoginMore.
Context {ext : Externals}.

(** A login answered with 200, taken apart. *)
Lemma login_success env c w code w' :
  run (loginHandler env c) w = (NoContent code, w') ->
  exists req user vals,
    json_Decode c = Some req /\
    user_lookup env (lr_UserName req) (db w) = Ok user /\
    credentials_mismatch req user = false /\
    session_id_taken (db w) (uuid_NewString env) = false /\
    session_Get c = Ok vals /\
    code = StatusOK /\
    w' = {| db := {| users := users (db w);
                     sessions := sessions (db w) ++ [login_Session env user];
                     users_auto_increment := users_auto_increment (db w) |};
            logger := logger w;
            executed := executed w ++ [INSERT_INTO_sessions (login_Session env user)];
            set_cookie := set_cookie w ++ [login_Cookie env vals] |}.
Proof.
  rewrite loginHandler_table.
  destruct (json_Decode c) as [req|]; [|discriminate].
  destruct (err_BeginTxx env); [discriminate|].
  destruct (user_lookup env (lr_UserName req) (db w)) as [user|] eqn:Hu;
    [|discriminate].
  destruct (credentials_mismatch req user) eqn:Hm; [discriminate|].
  cbn zeta. destruct (err_Exec env); [discriminate|].
  unfold exec. cbn [login_Session Session.ID].
  destruct (session_id_taken (db w) (uuid_NewString env)) eqn:Hfresh;
    [discriminate|].
  destruct (err_Commit env); [discriminate|].
  destruct (session_Get c) as [vals|]; [|discriminate].
  destruct (err_session_Save env); [discriminate|].
  intros H. injection H as <- <-.
  exists req, user, vals. repeat split; solve [reflexivity | assumption].
Qed.

(** X4.  When the store answers and no user row matches the submitted name,
    the login is answered with 500 carrying the driver's "no rows" text,
    and nothing is written. *)
Theorem login_unknown_name_is_500 env c req w :
  json_Decode c = Some req ->
  err_BeginTxx env = None ->
  err_Get_user env = None ->
  name_taken (db w) (lr_UserName req) = false ->
  run (loginHandler env c) w
  = (HTTPError StatusInternalServerError "sql: no rows in result set", w).
Proof.
  intros Hreq Hb Hg Hfree. rewrite loginHandler_table, Hreq, Hb.
  unfold user_lookup, select_user_by_name. rewrite Hg.
  unfold name_taken in Hfree.
  rewrite <- (app_nil_r (users (db w))), (find_app_miss _ _ _ Hfree).
  reflexivity.
Qed.

(** X5.  When no call fails, the lookup finds a user whose stored name and
    password hash equal the submitted name and the digest of the submitted
    password, the new session id is unused and the cookie store answers,
    the login is answered with 200. *)
Theorem login_good_credentials_ok env c req user vals w :
  healthy env ->
  json_Decode c = Some req ->
  select_user_by_name (lr_UserName req) (db w) = Ok user ->
  lr_UserName req = User.Name user ->
  Sprintf_x (sha512_Sum512 (list_byte_of_string (lr_Password req))) = User.Password user ->
  session_id_taken (db w) (uuid_NewString env) = false ->
  session_Get c = Ok vals ->
  fst (run (loginHandler env c) w) = NoContent StatusOK.
Proof.
  intros (Hb & He & Hc & _ & Hg & Hs) Hreq Hu Hname Hpw Hfresh Hget.
  rewrite loginHandler_table, Hreq, Hb. unfold user_lookup. rewrite Hg, Hu.
  rewrite (proj2 (credentials_match_spec req user) (conj Hname Hpw)).
  cbn zeta. rewrite He. unfold exec. cbn [login_Session Session.ID].
  rewrite Hfresh, Hc, Hget, Hs. reflexivity.
Qed.

(** X6.  A login writes at most one row: it never touches the users table,
    the id counter or the log, and the sessions table afterwards is either
    as before or longer by the one row made of the new UUID, the id of the
    user that the lookup by the submitted name returned, and now plus 600
    seconds. *)
Theorem login_writes_at_most_one_session env c w :
  users (db (snd (run (loginHandler env c) w))) = users (db w) /\
  users_auto_increment (db (snd (run (loginHandler env c) w)))
  = users_auto_increment (db w) /\
  logger (snd (run (loginHandler env c) w)) = logger w /\
  (sessions (db (snd (run (loginHandler env c) w))) = sessions (db w) \/
   exists req user,
     json_Decode c = Some req /\
     user_lookup env (lr_UserName req) (db w) = Ok user /\
     sessions (db (snd (run (loginHandler env c) w)))
     = (sessions (db w)
        ++ [ {| Session.ID := uuid_NewString env;
                Session.UserID := User.ID user;
                Session.Expires := Time_Unix (time_Now env) + 600 |} ])%list).
Proof.
  rewrite loginHandler_table.
  destruct (json_Decode c) as [req|];
    [|split; [|split; [|split; [|left]]]; reflexivity].
  destruct (err_BeginTxx env);
    [split; [|split; [|split; [|left]]]; reflexivity|].
  destruct (user_lookup env (lr_UserName req) (db w)) as [user|] eqn:Hu;
    [|split; [|split; [|split; [|left]]]; reflexivity].
  destruct (credentials_mismatch req user);
    [split; [|split; [|split; [|left]]]; reflexivity|].
  cbn zeta. destruct (err_Exec env);
    [split; [|split; [|split; [|left]]]; reflexivity|].
  unfold exec. cbn [login_Session Session.ID].
  destruct (session_id_taken _ _);
    [split; [|split; [|split; [|left]]]; reflexivity|].
  destruct (err_Commit env);
    [split; [|split; [|split; [|left]]]; reflexivity|].
  destruct (session_Get c).
  - destruct (err_session_Save env);
      (split; [|split; [|split]]; [reflexivity..|]);
      right; exists req, user;
      (split; [reflexivity | split; [exact Hu | reflexivity]]).
  - split; [|split; [|split]]; [reflexivity..|].
    right. exists req, user.
    split; [reflexivity | split; [exact Hu | reflexivity]].
Qed.

(** X7.  A login sets a cookie only when it answers 200: in every other
    outcome the response carries no cookie, and with a 200 it carries
    exactly one. *)
Theorem login_cookie_only_on_success env c w :
  (fst (run (loginHandler env c) w) = NoContent StatusOK /\
   exists vals,
     session_Get c = Ok vals /\
     set_cookie (snd (run (loginHandler env c) w))
     = (set_cookie w ++ [login_Cookie env vals])%list) \/
  ((exists code msg, fst (run (loginHandler env c) w) = HTTPError code msg) /\
   set_cookie (snd (run (loginHandler env c) w)) = set_cookie w).
Proof.
  rewrite loginHandler_table.
  destruct (json_Decode c) as [req|]; [|right; split; [eexists _, _|]; reflexivity].
  destruct (err_BeginTxx env); [right; split; [eexists _, _|]; reflexivity|].
  destruct (user_lookup _ _ _) as [user|];
    [|right; split; [eexists _, _|]; reflexivity].
  destruct (credentials_mismatch req user);
    [right; split; [eexists _, _|]; reflexivity|].
  cbn zeta. destruct (err_Exec env); [right; split; [eexists _, _|]; reflexivity|].
  destruct (exec _ _ _); [|right; split; [eexists _, _|]; reflexivity].
  destruct (err_Commit env); [right; split; [eexists _, _|]; reflexivity|].
  destruct (session_Get c) as [vals|];
    [|right; split; [eexists _, _|]; reflexivity].
  destruct (err_session_Save env);
    [right; split; [eexists _, _|]; reflexivity|].
  left. split; [reflexivity|]. exists vals. split; reflexivity.
Qed.

(** X8.  The session row is committed before the cookie is written: when
    the credentials pass and the insert commits but the cookie store then
    fails (on [session.Get] or on [Save]), the login is answered with 500
    while the new session row stays in the store, and no cookie is sent. *)
Theorem login_cookie_failure_leaves_session env c req user e w :
  json_Decode c = Some req ->
  err_BeginTxx env = None -> err_Exec env = None -> err_Commit env = None ->
  user_lookup env (lr_UserName req) (db w) = Ok user ->
  credentials_mismatch req user = false ->
  session_id_taken (db w) (uuid_NewString env) = false ->
  (session_Get c = Err e \/
   (exists vals, session_Get c = Ok vals) /\ err_session_Save env = Some e) ->
  fst (run (loginHandler env c) w) = HTTPError StatusInternalServerError e /\
  sessions (db (snd (run (loginHandler env c) w)))
  = (sessions (db w) ++ [login_Session env user])%list /\
  set_cookie (snd (run (loginHandler env c) w)) = set_cookie w.
Proof.
  intros Hreq Hb He Hc Hu Hok Hfresh Hfail.
  rewrite loginHandler_table, Hreq, Hb, Hu, Hok. cbn zeta. rewrite He.
  unfold exec. cbn [login_Session Session.ID]. rewrite Hfresh, Hc.
  destruct Hfail as [-> | [[vals ->] ->]]; repeat split.
Qed.
End LoginMore.

(** ** Registration, login and the session check together *)

Section Composition.
Context {ext : Externals}.
(** The engine's comparison holds between a string and itself. *)
Hypothesis sql_str_eq_refl : forall s, sql_str_eq s s = true.

(** The row a registration appended is the one a lookup by its name
    returns. *)
Lemma select_user_appended d name row :
  name_taken d name = false ->
  User.Name row = name ->
  List.find (fun r => sql_str_eq (User.Name r) name) (users d ++ [row]) = Some row.
Proof.
  intros Hfree Hname. unfold name_taken in Hfree.
  rewrite (find_app_miss _ _ _ Hfree). cbn [List.find].
  now rewrite Hname, sql_str_eq_refl.
Qed.

Lemma select_session_appended d id row :
  session_id_taken d id = false ->
  Session.ID row = id ->
  List.find (fun r => sql_str_eq (Session.ID r) id) (sessions d ++ [row]) = Some row.
Proof.
  intros Hfree Hid. unfold session_id_taken in Hfree.
  rewrite (find_app_miss _ _ _ Hfree). cbn [List.find].
  now rewrite Hid, sql_str_eq_refl.
Qed.

(** X10.  Registration followed by login: after a registration answered
    with 201, a login under the same name with a password of the same
    SHA-512 digest is answered with 200 (no call failing, the session id
    unused, the cookie store answering), and the session it inserts
    belongs to the id the store generated for that user. *)
Theorem login_after_register
        env1 c1 req1 w code body w1 env2 c2 req2 vals :
  json_Decode c1 = Some req1 ->
  run (userRegisterHandler env1 c1) w = (JSON code body, w1) ->
  json_Decode c2 = Some req2 ->
  lr_UserName req2 = pu_Name req1 ->
  sha512_Sum512 (list_byte_of_string (lr_Password req2))
  = sha512_Sum512 (list_byte_of_string (pu_Password req1)) ->
  healthy env2 ->
  session_id_taken (db w1) (uuid_NewString env2) = false ->
  session_Get c2 = Ok vals ->
  fst (run (loginHandler env2 c2) w1) = NoContent StatusOK /\
  sessions (db (snd (run (loginHandler env2 c2) w1)))
  = (sessions (db w)
     ++ [ {| Session.ID := uuid_NewString env2;
             Session.UserID := users_auto_increment (db w);
             Session.Expires := Time_Unix (time_Now env2) + 600 |} ])%list.
Proof.
  intros Hreq1 Hreg Hreq2 Hname Hdig (Hb & He & Hc & _ & Hg & Hs) Hfresh Hget.
  apply register_success in Hreg.
  destruct Hreg as (req & Hreq & _ & _ & Hfree & Hdb).
  rewrite Hreq1 in Hreq. injection Hreq as <-.
  rewrite loginHandler_table, Hreq2, Hb.
  unfold user_lookup, select_user_by_name. rewrite Hg, Hdb. cbn [users].
  rewrite Hname,
    (select_user_appended (db w) (pu_Name req1)
       (stored_User (db w) (store_now env1) (registered_User req1)) Hfree eq_refl).
  assert (Hok : credentials_mismatch req2
                  (stored_User (db w) (store_now env1) (registered_User req1)) = false).
  { apply credentials_match_spec. cbn. now rewrite Hname, Hdig. }
  rewrite Hok. cbn zeta. rewrite He. unfold exec.
  cbn [login_Session Session.ID]. rewrite Hdb in Hfresh.
  rewrite Hfresh, Hc, Hget, Hs. split; reflexivity.
Qed.

(** X11.  After a registration answered with 201, a login under the same
    name with a password whose SHA-512 digest differs from that of the
    registered password is answered with 401, and nothing is written. *)
Theorem login_after_register_wrong_password
        env1 c1 req1 w code body w1 env2 c2 req2 :
  json_Decode c1 = Some req1 ->
  run (userRegisterHandler env1 c1) w = (JSON code body, w1) ->
  json_Decode c2 = Some req2 ->
  lr_UserName req2 = pu_Name req1 ->
  sha512_Sum512 (list_byte_of_string (lr_Password req2))
  <> sha512_Sum512 (list_byte_of_string (pu_Password req1)) ->
  err_BeginTxx env2 = None ->
  err_Get_user env2 = None ->
  run (loginHandler env2 c2) w1
  = (HTTPError StatusUnauthorized "invalid username or password", w1).
Proof.
  intros Hreq1 Hreg Hreq2 Hname Hdig Hb Hg.
  apply register_success in Hreg.
  destruct Hreg as (req & Hreq & _ & _ & Hfree & Hdb).
  rewrite Hreq1 in Hreq. injection Hreq as <-.
  rewrite loginHandler_table, Hreq2, Hb.
  unfold user_lookup, select_user_by_name. rewrite Hg, Hdb. cbn [users].
  rewrite Hname,
    (select_user_appended (db w) (pu_Name req1)
       (stored_User (db w) (store_now env1) (registered_User req1)) Hfree eq_refl).
  assert (Hbad : credentials_mismatch req2
                   (stored_User (db w) (store_now env1) (registered_User req1)) = true).
  { apply credentials_mismatch_spec. right. cbn.
    intros H. apply Hdig. exact (Sprintf_x_injective _ _ H). }
  now rewrite Hbad.
Qed.

(** X12.  The lifetime of a session: a request carrying the token of a
    login answered at second [t] passes the session check up to and
    including second [t + 600], and is answered with 401 "session has
    expired" from second [t + 601] on. *)
Theorem session_lifetime {Body}
        env1 c1 w code w1 env2 (c2 : echo_Context Body) vals2 :
  run (loginHandler env1 c1) w = (NoContent code, w1) ->
  session_Get c2 = Ok vals2 ->
  vals2 !! defaultSessionIDKey = Some (VString (uuid_NewString env1)) ->
  err_Get_session env2 = None ->
  (Time_Unix (time_Now env2) <= Time_Unix (time_Now env1) + 600 ->
   run (userHandler env2 c2) w1
   = (profile_reply env2 (Param c2 "user_id") (db w1), w1)) /\
  (Time_Unix (time_Now env2) > Time_Unix (time_Now env1) + 600 ->
   fst (run (userHandler env2 c2) w1)
   = HTTPError StatusUnauthorized "session has expired").
Proof.
  intros Hlogin Hget Hval Hg.
  apply login_success in Hlogin.
  destruct Hlogin as (req & user & vals & _ & _ & _ & Hfresh & _ & _ & ->).
  rewrite userHandler_table, Hget, Hval.
  unfold session_lookup, select_session_by_id. rewrite Hg. cbn [db sessions].
  rewrite (select_session_appended (db w) (uuid_NewString env1)
             (login_Session env1 user) Hfresh eq_refl).
  cbn [login_Session Session.UserID Session.Expires].
  split; intros Ht.
  - destruct (Z.gtb_spec (Time_Unix (time_Now env2))
                (Time_Unix (time_Now env1) + 600)); [lia | reflexivity].
  - destruct (Z.gtb_spec (Time_Unix (time_Now env2))
                (Time_Unix (time_Now env1) + 600)); [reflexivity | lia].
Qed.

(** X18.  Registration followed by a profile fetch: after a registration
    answered with 201, a request with a valid session whose path parameter
    matches the generated id and no earlier user's id is answered with the
    registered name, display name and description, the store's
    timestamps, id 0 and an empty password. *)
Theorem profile_after_register {Body}
        env1 c1 req1 w code body w1 env2 (c2 : echo_Context Body) vals2 token s :
  json_Decode c1 = Some req1 ->
  run (userRegisterHandler env1 c1) w = (JSON code body, w1) ->
  session_Get c2 = Ok vals2 ->
  vals2 !! defaultSessionIDKey = Some (VString token) ->
  session_lookup env2 token (db w1) = Ok s ->
  Time_Unix (time_Now env2) <= Session.Expires s ->
  err_Get_user env2 = None ->
  existsb (fun r => sql_int_eq (User.ID r) (Param c2 "user_id")) (users (db w)) = false ->
  sql_int_eq (users_auto_increment (db w)) (Param c2 "user_id") = true ->
  fst (run (userHandler env2 c2) w1)
  = JSON StatusOK
      [ ("ID", JNumber 0);
        ("Name", JString (pu_Name req1));
        ("DisplayName", JString (pu_DisplayName req1));
        ("Description", JString (pu_Description req1));
        ("Password", JString "");
        ("CreatedAt", JTime (store_now env1));
        ("UpdatedAt", JTime (store_now env1)) ].
Proof.
  intros Hreq1 Hreg Hget Hval Hs Hlive Hg Hothers Hid.
  rewrite (userHandler_valid_session env2 c2 w1 vals2 token s Hget Hval Hs Hlive).
  apply register_success in Hreg.
  destruct Hreg as (req & Hreq & _ & _ & _ & Hdb).
  rewrite Hreq1 in Hreq. injection Hreq as <-.
  cbn [fst]. unfold profile_reply, select_profile_by_id.
  rewrite Hg, Hdb. cbn [users]. rewrite (find_app_miss _ _ _ Hothers).
  cbn [List.find stored_User User.ID]. rewrite Hid. reflexivity.
Qed.
End Composition.

(** ** Rows are never removed or rewritten *)

Section Persistence.
Context {ext : Externals}.

Lemma login_writes_at_most_one_session_aux env c w :
  users (db (snd (run (loginHandler env c) w))) = users (db w) /\
  (sessions (db (snd (run (loginHandler env c) w))) = sessions (db w) \/
   exists row,
     sessions (db (snd (run (loginHandler env c) w)))
     = (sessions (db w) ++ [row])%list).
Proof.
  rewrite loginHandler_table.
  destruct (json_Decode c) as [req|]; [|split; [|left]; reflexivity].
  destruct (err_BeginTxx env); [split; [|left]; reflexivity|].
  destruct (user_lookup _ _ _) as [user|]; [|split; [|left]; reflexivity].
  destruct (credentials_mismatch req user); [split; [|left]; reflexivity|].
  cbn zeta. destruct (err_Exec env); [split; [|left]; reflexivity|].
  unfold exec. cbn [login_Session Session.ID].
  destruct (session_id_taken _ _); [split; [|left]; reflexivity|].
  destruct (err_Commit env); [split; [|left]; reflexivity|].
  destruct (session_Get c); [|split; [|right; eexists]; reflexivity].
  destruct (err_session_Save env); split; try reflexivity; right; eexists; reflexivity.
Qed.

Lemma serve_tables_grow o w :
  exists us ss,
    users (db (snd (serve o w))) = (users (db w) ++ us)%list /\
    sessions (db (snd (serve o w))) = (sessions (db w) ++ ss)%list.
Proof.
  destruct o as [env c|env c|env c]; cbn [serve].
  - rewrite userRegisterHandler_table.
    destruct (json_Decode c) as [req|];
      [|exists [], []; rewrite !app_nil_r; split; reflexivity].
    cbn zeta.
    destruct (err_BeginTxx env);
      [exists [], []; rewrite !app_nil_r; split; reflexivity|].
    destruct (err_Exec env);
      [exists [], []; rewrite !app_nil_r; split; reflexivity|].
    unfold exec. cbn [registered_User User.Name].
    destruct (name_taken _ _);
      [exists [], []; rewrite !app_nil_r; split; reflexivity|].
    destruct (err_Commit env);
      [exists [], []; rewrite !app_nil_r; split; reflexivity|].
    eexists _, []. split; [cbn; reflexivity | cbn; now rewrite app_nil_r].
  - destruct (login_writes_at_most_one_session_aux env c w) as (Hu & [Hs | [row Hs]]).
    + exists [], []. rewrite !app_nil_r. split; assumption.
    + exists [], [row]. rewrite app_nil_r. split; assumption.
  - exists [], []. rewrite !app_nil_r, userHandler_db. split; reflexivity.
Qed.

Lemma serve_all_tables_grow os w :
  exists us ss,
    users (db (serve_all os w)) = (users (db w) ++ us)%list /\
    sessions (db (serve_all os w)) = (sessions (db w) ++ ss)%list.
Proof.
  revert w. induction os as [|o os IH]; intros w; cbn [serve_all].
  - exists [], []. rewrite !app_nil_r. split; reflexivity.
  - destruct (IH (snd (serve o w))) as (us2 & ss2 & Hu2 & Hs2).
    destruct (serve_tables_grow o w) as (us1 & ss1 & Hu1 & Hs1).
    exists (us1 ++ us2)%list, (ss1 ++ ss2)%list.
    rewrite Hu2, Hs2, Hu1, Hs1, !app_assoc. split; reflexivity.
Qed.

(** X13.  No request removes or rewrites a session: whatever requests are
    served, every session row stays in the table, and a token that the
    session lookup resolved keeps resolving to the same user and expiry. *)
Theorem sessions_persist os w :
  (forall row, In row (sessions (db w)) -> In row (sessions (db (serve_all os w)))) /\
  (forall token s,
      select_session_by_id token (db w) = Ok s ->
      select_session_by_id token (db (serve_all os w)) = Ok s).
Proof.
  destruct (serve_all_tables_grow os w) as (us & ss & _ & Hs). split.
  - intros row Hin. rewrite Hs. apply in_or_app. left. exact Hin.
  - intros token s. unfold select_session_by_id. rewrite Hs.
    destruct (List.find _ (sessions (db w))) as [r|] eqn:Hfind; [|discriminate].
    now rewrite (find_app_hit _ _ ss _ Hfind).
Qed.

(** X14.  No request removes or rewrites a user: whatever requests are
    served, every user row stays in the table unchanged, and a name that
    the login lookup resolved keeps resolving to the same row, password
    hash included. *)
Theorem users_persist os w :
  (forall row, In row (users (db w)) -> In row (users (db (serve_all os w)))) /\
  (forall name row,
      select_user_by_name name (db w) = Ok row ->
      select_user_by_name name (db (serve_all os w)) = Ok row).
Proof.
  destruct (serve_all_tables_grow os w) as (us & ss & Hu & _). split.
  - intros row Hin. rewrite Hu. apply in_or_app. left. exact Hin.
  - intros name row. unfold select_user_by_name. rewrite Hu.
    destruct (List.find _ (users (db w))) as [r|] eqn:Hfind; [|discriminate].
    now rewrite (find_app_hit _ _ us _ Hfind).
Qed.
End Persistence.

(** ** More on the session check *)

Section SessionCheckMore.
Context {ext : Externals} {Body : Type}.
Implicit Types (env : Env) (c : echo_Context Body) (w : World).

(** X15.  A profile answered by [userHandler] never shows the password
    hash or the id: the body is built from a stored row whose id matches
    the path parameter, with that row's name, display name, description
    and timestamps, but with id 0 and an empty password; and nothing is
    written. *)
Theorem profile_hides_password_and_id env c w code body w' :
  run (userHandler env c) w = (JSON code body, w') ->
  code = StatusOK /\ w' = w /\
  exists row,
    In row (users (db w)) /\
    sql_int_eq (User.ID row) (Param c "user_id") = true /\
    body = [ ("ID", JNumber 0);
             ("Name", JString (User.Name row));
             ("DisplayName", JString (User.DisplayName row));
             ("Description", JString (User.Description row));
             ("Password", JString "");
             ("CreatedAt", JTime (User.CreatedAt row));
             ("UpdatedAt", JTime (User.UpdatedAt row)) ].
Proof.
  rewrite userHandler_table.
  destruct (session_Get c) as [vals|]; [|discriminate].
  destruct (vals !! defaultSessionIDKey) as [[id|n]|]; [|discriminate..].
  destruct (session_lookup env id (db w)) as [s|]; [|discriminate].
  destruct (Time_Unix (time_Now env) >? Session.Expires s); [discriminate|].
  unfold profile_reply, select_profile_by_id.
  destruct (err_Get_user env); [discriminate|].
  destruct (List.find _ (users (db w))) as [row|] eqn:Hfind; [|discriminate].
  apply find_some in Hfind. destruct Hfind as [Hin Hid].
  intros H. injection H as <- <- <-.
  repeat split. exists row. repeat split; assumption.
Qed.

(** X16.  With a valid session, a path parameter that matches no user's id
    is answered with 401 "session has expired", the same answer as for an
    expired session, and nothing is written or logged. *)
Theorem profile_unknown_id_reports_expired env c w vals token s :
  session_Get c = Ok vals ->
  vals !! defaultSessionIDKey = Some (VString token) ->
  session_lookup env token (db w) = Ok s ->
  Time_Unix (time_Now env) <= Session.Expires s ->
  existsb (fun r => sql_int_eq (User.ID r) (Param c "user_id")) (users (db w)) = false ->
  run (userHandler env c) w
  = (HTTPError StatusUnauthorized "session has expired", w).
Proof.
  intros Hget Hval Hs Hlive Hnone.
  rewrite (userHandler_valid_session env c w vals token s Hget Hval Hs Hlive).
  unfold profile_reply, select_profile_by_id.
  destruct (err_Get_user env); [reflexivity|].
  rewrite <- (app_nil_r (users (db w))), (find_app_miss _ _ _ Hnone).
  reflexivity.
Qed.

(** X17.  The session check never sets a cookie, so using a session does
    not extend it; it writes to the log in one case only, the warning that
    accompanies the 401 for an expired session; and the only statement it
    ever sends is the DELETE on "sessoins". *)
Theorem userHandler_sets_no_cookie env c w :
  set_cookie (snd (run (userHandler env c) w)) = set_cookie w /\
  ((logger (snd (run (userHandler env c) w)) = logger w /\
    executed (snd (run (userHandler env c) w)) = executed w) \/
   (fst (run (userHandler env c) w)
    = HTTPError StatusUnauthorized "session has expired" /\
    logger (snd (run (userHandler env c) w))
    = (logger w ++ ["failed to delete the session info from DB"])%list /\
    exists s,
      executed (snd (run (userHandler env c) w))
      = (executed w ++ [DELETE_WHERE_id "sessoins" s])%list)).
Proof.
  rewrite userHandler_table.
  destruct (session_Get c) as [vals|]; [|split; [|left; split]; reflexivity].
  destruct (vals !! defaultSessionIDKey) as [[id|n]|];
    [|split; [|left; split]; reflexivity..].
  destruct (session_lookup env id (db w)) as [s|];
    [|split; [|left; split]; reflexivity].
  destruct (Time_Unix (time_Now env) >? Session.Expires s);
    [|split; [|left; split]; reflexivity].
  cbn zeta. destruct (exec_result_expiry_DELETE env s (db w)) as [e ->].
  split; [reflexivity|]. right. split; [reflexivity|]. split; [reflexivity|].
  exists s. reflexivity.
Qed.
End SessionCheckMore.

(** ** The further properties on concrete requests *)

Lemma register_free_name_created_witness :
  fst (run (userRegisterHandler (ext := sample_externals) (env_at t0 uuid1) pretest_PostUser)
           initial_World)
  = JSON StatusCreated
      (json_Marshal_User (registered_User (ext := sample_externals) pretest_request)).
Proof.
  apply (register_free_name_created (ext := sample_externals) (env_at t0 uuid1)
           pretest_PostUser pretest_request initial_World).
  - repeat split.
  - reflexivity.
  - vm_compute. reflexivity.
Defined.

Lemma login_unknown_name_is_500_witness :
  run (loginHandler (ext := sample_externals) env_live (login_as "nobody" "s3cr3t"))
      after_register
  = (HTTPError StatusInternalServerError "sql: no rows in result set", after_register).
Proof.
  apply (login_unknown_name_is_500 (ext := sample_externals) env_live
           (login_as "nobody" "s3cr3t")
           {| lr_UserName := "nobody"; lr_Password := "s3cr3t" |} after_register).
  - reflexivity.
  - reflexivity.
  - reflexivity.
  - vm_compute. reflexivity.
Defined.

Lemma login_good_credentials_ok_witness :
  fst (run (loginHandler (ext := sample_externals) (env_at (t0 + Second) uuid1) pretest_Login)
           after_register)
  = NoContent StatusOK.
Proof.
  apply (login_good_credentials_ok (ext := sample_externals)
           (env_at (t0 + Second) uuid1) pretest_Login
           {| lr_UserName := "test"; lr_Password := "s3cr3t" |}
           pretest_row ∅ after_register).
  - repeat split.
  - reflexivity.
  - vm_compute. reflexivity.
  - reflexivity.
  - vm_compute. reflexivity.
  - vm_compute. reflexivity.
  - reflexivity.
Defined.

Lemma login_cookie_failure_leaves_session_witness :
  fst (run (loginHandler (ext := sample_externals) env_cookie_store_down pretest_Login)
           after_register)
  = HTTPError StatusInternalServerError "securecookie: the value is too long" /\
  sessions (db (snd (run (loginHandler (ext := sample_externals) env_cookie_store_down
                            pretest_Login) after_register)))
  = (sessions (db after_register)
     ++ [login_Session env_cookie_store_down pretest_row])%list /\
  set_cookie (snd (run (loginHandler (ext := sample_externals) env_cookie_store_down
                          pretest_Login) after_register))
  = set_cookie after_register.
Proof.
  apply (login_cookie_failure_leaves_session (ext := sample_externals)
           env_cookie_store_down pretest_Login
           {| lr_UserName := "test"; lr_Password := "s3cr3t" |}
           pretest_row "securecookie: the value is too long" after_register).
  - reflexivity.
  - reflexivity.
  - reflexivity.
  - reflexivity.
  - vm_compute. reflexivity.
  - vm_compute. reflexivity.
  - vm_compute. reflexivity.
  - right. split; [exists ∅; reflexivity | reflexivity].
Defined.

Lemma Sprintf_x_round_trip_witness :
  Sprintf_x [xde; xad; xbe; xef] = "deadbeef" /\
  unhex "deadbeef" = Some [xde; xad; xbe; xef] /\
  [xde; xad; xbe; xef] = [xde; xad; xbe; xef].
Proof.
  split; [reflexivity|]. split.
  - exact (proj1 Sprintf_x_round_trip [xde; xad; xbe; xef]).
  - apply (proj2 Sprintf_x_round_trip [xde; xad; xbe; xef] [xde; xad; xbe; xef]).
    reflexivity.
Defined.

Lemma login_after_register_witness :
  fst (run (loginHandler (ext := sample_externals) (env_at (t0 + Second) uuid1) pretest_Login)
           after_register)
  = NoContent StatusOK /\
  sessions (db (snd (run (loginHandler (ext := sample_externals)
                            (env_at (t0 + Second) uuid1) pretest_Login) after_register)))
  = (sessions (db initial_World)
     ++ [ {| Session.ID := uuid1;
             Session.UserID := users_auto_increment (db initial_World);
             Session.Expires := Time_Unix (t0 + Second) + 600 |} ])%list.
Proof.
  apply (login_after_register (ext := sample_externals) String.eqb_refl
           (env_at t0 uuid1) pretest_PostUser pretest_request initial_World
           201 pretest_body after_register
           (env_at (t0 + Second) uuid1) pretest_Login
           {| lr_UserName := "test"; lr_Password := "s3cr3t" |} ∅).
  - reflexivity.
  - vm_compute. reflexivity.
  - reflexivity.
  - reflexivity.
  - reflexivity.
  - repeat split.
  - vm_compute. reflexivity.
  - reflexivity.
Defined.

Lemma login_after_register_wrong_password_witness :
  run (loginHandler (ext := sample_externals) env_live (login_as "test" "wrong"))
      after_register
  = (HTTPError StatusUnauthorized "invalid username or password", after_register).
Proof.
  apply (login_after_register_wrong_password (ext := sample_externals) String.eqb_refl
           (env_at t0 uuid1) pretest_PostUser pretest_request initial_World
           201 pretest_body after_register env_live (login_as "test" "wrong")
           {| lr_UserName := "test"; lr_Password := "wrong" |}).
  - reflexivity.
  - vm_compute. reflexivity.
  - reflexivity.
  - reflexivity.
  - vm_compute. discriminate.
  - reflexivity.
  - reflexivity.
Defined.

Lemma session_lifetime_witness :
  run (userHandler (ext := sample_externals) env_at_expiry (get_user_with uuid1 "1"))
      after_login
  = (profile_reply (ext := sample_externals) env_at_expiry "1" (db after_login),
     after_login) /\
  fst (run (userHandler (ext := sample_externals) env_past_expiry (get_user_with uuid1 "1"))
           after_login)
  = HTTPError StatusUnauthorized "session has expired".
Proof.
  assert (Hlogin : run (loginHandler (ext := sample_externals)
                          (env_at (t0 + Second) uuid1) pretest_Login) after_register
                   = (NoContent 200, after_login)) by (vm_compute; reflexivity).
  split.
  - apply (session_lifetime (ext := sample_externals) String.eqb_refl
             (env_at (t0 + Second) uuid1) pretest_Login after_register 200 after_login
             env_at_expiry (get_user_with uuid1 "1") (cookie_with uuid1)
             Hlogin eq_refl).
    + vm_compute. reflexivity.
    + reflexivity.
    + vm_compute. discriminate.
  - apply (session_lifetime (ext := sample_externals) String.eqb_refl
             (env_at (t0 + Second) uuid1) pretest_Login after_register 200 after_login
             env_past_expiry (get_user_with uuid1 "1") (cookie_with uuid1)
             Hlogin eq_refl).
    + vm_compute. reflexivity.
    + reflexivity.
    + vm_compute. reflexivity.
Defined.

Lemma sessions_persist_witness :
  In login_session1
     (sessions (db (serve_all (ext := sample_externals)
                      [ GetUser env_late (get_user_with uuid1 "1");
                        PostLogin (env_at (t0 + 3 * Second) uuid2) pretest_Login ]
                      after_login))) /\
  select_session_by_id (ext := sample_externals) uuid1
    (db (serve_all (ext := sample_externals)
           [ GetUser env_late (get_user_with uuid1 "1");
             PostLogin (env_at (t0 + 3 * Second) uuid2) pretest_Login ]
           after_login))
  = Ok fetched_session1.
Proof.
  destruct (sessions_persist (ext := sample_externals)
              [ GetUser env_late (get_user_with uuid1 "1");
                PostLogin (env_at (t0 + 3 * Second) uuid2) pretest_Login ]
              after_login) as [Hrow Htoken].
  split.
  - apply Hrow. vm_compute. left. reflexivity.
  - apply Htoken. vm_compute. reflexivity.
Defined.

Lemma users_persist_witness :
  In pretest_row
     (users (db (serve_all (ext := sample_externals)
                   [ PostUser env_live pretest_PostUser;
                     PostUser env_live (post_user "other" "hunter2") ]
                   after_register))) /\
  select_user_by_name (ext := sample_externals) "test"
    (db (serve_all (ext := sample_externals)
           [ PostUser env_live pretest_PostUser;
             PostUser env_live (post_user "other" "hunter2") ]
           after_register))
  = Ok pretest_row.
Proof.
  destruct (users_persist (ext := sample_externals)
              [ PostUser env_live pretest_PostUser;
                PostUser env_live (post_user "other" "hunter2") ]
              after_register) as [Hrow Hname].
  split.
  - apply Hrow. vm_compute. left. reflexivity.
  - apply Hname. vm_compute. reflexivity.
Defined.

Lemma profile_hides_password_and_id_witness :
  200 = StatusOK /\ after_login = after_login /\
  exists row,
    In row (users (db after_login)) /\
    sql_int_eq (Externals := sample_externals) (User.ID row) "1" = true /\
    [ ("ID", JNumber 0); ("Name", JString "test"); ("DisplayName", JString "test");
      ("Description", JString "blah blah blah"); ("Password", JString "");
      ("CreatedAt", JTime t0); ("UpdatedAt", JTime t0) ]
    = [ ("ID", JNumber 0);
        ("Name", JString (User.Name row));
        ("DisplayName", JString (User.DisplayName row));
        ("Description", JString (User.Description row));
        ("Password", JString "");
        ("CreatedAt", JTime (User.CreatedAt row));
        ("UpdatedAt", JTime (User.UpdatedAt row)) ].
Proof.
  apply (profile_hides_password_and_id (ext := sample_externals) env_live
           (get_user_with uuid1 "1") after_login 200 _ after_login).
  vm_compute. reflexivity.
Defined.

Lemma profile_unknown_id_reports_expired_witness :
  run (userHandler (ext := sample_externals) env_live (get_user_with uuid1 "42"))
      after_login
  = (HTTPError StatusUnauthorized "session has expired", after_login).
Proof.
  apply (profile_unknown_id_reports_expired (ext := sample_externals) env_live
           (get_user_with uuid1 "42") after_login (cookie_with uuid1) uuid1
           fetched_session1 eq_refl).
  - vm_compute. reflexivity.
  - vm_compute. reflexivity.
  - vm_compute. discriminate.
  - vm_compute. reflexivity.
Defined.

Lemma profile_after_register_witness :
  fst (run (userHandler (ext := sample_externals) env_live (get_user_with uuid1 "2"))
           (snd (run (userRegisterHandler (ext := sample_externals)
                        (env_at (t0 + 2 * Second) uuid2) (post_user "other" "hunter2"))
                     after_login)))
  = JSON StatusOK
      [ ("ID", JNumber 0); ("Name", JString "other"); ("DisplayName", JString "other");
        ("Description", JString ""); ("Password", JString "");
        ("CreatedAt", JTime (t0 + 2 * Second));
        ("UpdatedAt", JTime (t0 + 2 * Second)) ].
Proof.
  apply (profile_after_register (ext := sample_externals)
           (env_at (t0 + 2 * Second) uuid2) (post_user "other" "hunter2")
           {| pu_Name := "other"; pu_DisplayName := "other";
              pu_Description := ""; pu_Password := "hunter2" |}
           after_login 201
           (json_Marshal_User
              (registered_User (ext := sample_externals)
                 {| pu_Name := "other"; pu_DisplayName := "other";
                    pu_Description := ""; pu_Password := "hunter2" |}))
           _ env_live (get_user_with uuid1 "2") (cookie_with uuid1) uuid1
           fetched_session1).
  - reflexivity.
  - vm_compute. reflexivity.
  - reflexivity.
  - vm_compute. reflexivity.
  - vm_compute. reflexivity.
  - vm_compute. discriminate.
  - reflexivity.
  - vm_compute. reflexivity.
  - vm_compute. reflexivity.
Defined.

(** X20.  There is no logout and no single-session rule: a token that
    passes the session check keeps passing it, at the same instant,
    after any further requests have been served (other logins included);
    the answer is then computed from the users table as it has become. *)
Theorem session_survives_requests {ext : Externals} {Body : Type}
        env (c : echo_Context Body) w vals token s os :
  session_Get c = Ok vals ->
  vals !! defaultSessionIDKey = Some (VString token) ->
  session_lookup env token (db w) = Ok s ->
  Time_Unix (time_Now env) <= Session.Expires s ->
  run (userHandler env c) (serve_all os w)
  = (profile_reply env (Param c "user_id") (db (serve_all os w)), serve_all os w).
Proof.
  intros Hget Hval Hs Hlive.
  apply (userHandler_valid_session env c (serve_all os w) vals token s Hget Hval);
    [|exact Hlive].
  unfold session_lookup, select_session_by_id in *.
  destruct (err_Get_session env); [discriminate|].
  destruct (serve_all_tables_grow os w) as (us & ss & _ & Hgrow).
  rewrite Hgrow.
  destruct (List.find _ (sessions (db w))) as [r|] eqn:Hfind; [|discriminate].
  now rewrite (find_app_hit _ _ ss _ Hfind).
Qed.

Lemma session_survives_requests_witness :
  run (userHandler (ext := sample_externals) env_live (get_user_with uuid1 "2"))
      (serve_all (ext := sample_externals)
         [ PostUser (env_at (t0 + 2 * Second) uuid2) (post_user "other" "hunter2");
           PostLogin (env_at (t0 + 3 * Second) uuid2) (login_as "other" "hunter2") ]
         after_login)
  = (profile_reply (ext := sample_externals) env_live "2" (db two_users_logged_in),
     two_users_logged_in).
Proof.
  apply (session_survives_requests (ext := sample_externals) env_live
           (get_user_with uuid1 "2") after_login (cookie_with uuid1) uuid1
           fetched_session1
           [ PostUser (env_at (t0 + 2 * Second) uuid2) (post_user "other" "hunter2");
             PostLogin (env_at (t0 + 3 * Second) uuid2) (login_as "other" "hunter2") ]
           eq_refl).
  - vm_compute. reflexivity.
  - vm_compute. reflexivity.
  - vm_compute. discriminate.
Defined.
